(** * harmonai/training/autoencoders.py: training step and demo callback

    A shallow embedding of [AutoencoderTrainingWrapper] and
    [AutoencoderDemoCallback].  The module is a thin sequence of calls into
    PyTorch, Lightning, torchaudio and wandb, so the model is a small
    state-and-exception monad over the wrapper's attributes, with the
    collaborators gathered in one record ([Torch]) and every call that leaves
    the module recorded in a trace. *)

From stdpp Require Import gmap strings list.
From Stdlib Require Import ZArith QArith Qminmax Lia DecimalString.
From Stdlib Require DecimalN.

Local Open Scope Z_scope.

(** ** Python exceptions *)

(** The classes that matter to the [except Exception] clause of the callback.
    [KeyboardInterrupt], [SystemExit] and [GeneratorExit] derive from
    [BaseException] only. *)
Inductive ExcClass : Type :=
  | KeyError
  | ZeroDivisionError
  | StopIteration
  | EinopsError
  | RuntimeError
  | OSError
  | ValueError
  | UnboundLocalError
  | KeyboardInterrupt
  | SystemExit
  | GeneratorExit.

Definition class_name (c : ExcClass) : string :=
  match c with
  | KeyError => "KeyError"
  | ZeroDivisionError => "ZeroDivisionError"
  | StopIteration => "StopIteration"
  | EinopsError => "EinopsError"
  | RuntimeError => "RuntimeError"
  | OSError => "OSError"
  | ValueError => "ValueError"
  | UnboundLocalError => "UnboundLocalError"
  | KeyboardInterrupt => "KeyboardInterrupt"
  | SystemExit => "SystemExit"
  | GeneratorExit => "GeneratorExit"
  end.

(** [isinstance(e, Exception)] *)
Definition derives_Exception (c : ExcClass) : bool :=
  match c with
  | KeyboardInterrupt | SystemExit | GeneratorExit => false
  | _ => true
  end.

Record PyExc : Type := mkExc { exc_class : ExcClass; exc_msg : string }.

Inductive Outcome (A : Type) : Type :=
  | Returned (a : A)
  | Raised (e : PyExc).
Arguments Returned {A} a.
Arguments Raised {A} e.

(** ** Statements: state passing with exceptions

    A raise does not roll back the attribute writes and the external calls
    made before it, so the state is returned in both outcomes. *)
Definition Py (St A : Type) : Type := St -> Outcome A * St.

Definition py_ret {St A} (a : A) : Py St A := fun s => (Returned a, s).

Definition py_bind {St A B} (m : Py St A) (k : A -> Py St B) : Py St B :=
  fun s =>
    match m s with
    | (Returned a, s') => k a s'
    | (Raised e, s') => (Raised e, s')
    end.

Definition py_raise {St A} (e : PyExc) : Py St A := fun s => (Raised e, s).

(** An external call whose result does not depend on the module's state. *)
Definition py_lift {St A} (o : Outcome A) : Py St A := fun s => (o, s).

Definition py_get {St} : Py St St := fun s => (Returned s, s).

Definition py_modify {St} (f : St -> St) : Py St unit := fun s => (Returned tt, f s).

(** [try: body  except Exception as e: handler(e)] *)
Definition py_try_except_Exception {St} (body : Py St unit) (handler : PyExc -> Py St unit)
  : Py St unit :=
  fun s =>
    match body s with
    | (Returned tt, s') => (Returned tt, s')
    | (Raised e, s') =>
        if derives_Exception (exc_class e) then handler e s' else (Raised e, s')
    end.

Notation "'let*' p ':=' m 'in' k" := (py_bind m (fun p => k))
  (at level 10, p pattern, m at level 100, k at level 200).
Notation "m ;;; k" := (py_bind m (fun _ => k))
  (at level 100, k at level 200, right associativity).

(** ** Python integers and dictionaries *)

(** [a % b]: floored remainder, [ZeroDivisionError] for a zero modulus. *)
Definition py_mod (a b : Z) : Outcome Z :=
  if b =? 0 then Raised (mkExc ZeroDivisionError "integer division or modulo by zero")
  else Returned (a mod b).

(** [d[k]] *)
Definition py_getitem {V} (d : gmap string V) (k : string) : Outcome V :=
  match d !! k with
  | Some v => Returned v
  | None => Raised (mkExc KeyError k)
  end.

(** [f'{n:08}']: sign-aware zero padding to width 8. *)
Definition digits (n : N) : string := NilZero.string_of_uint (N.to_uint n).

Fixpoint zeros (k : nat) : string :=
  match k with
  | O => EmptyString
  | S k' => "0" +:+ zeros k'
  end.

Definition format_08 (n : Z) : string :=
  let d := digits (Z.abs_N n) in
  if n <? 0
  then "-" +:+ zeros (7 - String.length d) +:+ d
  else zeros (8 - String.length d) +:+ d.

(** ** Tensors: a shape and the elements in row-major order *)

Record Tensor (A : Type) : Type := mkTensor { shape : list nat; data : list A }.
Arguments mkTensor {A} shape data.
Arguments shape {A} t.
Arguments data {A} t.

Definition ndim {A} (t : Tensor A) : nat := length (shape t).

Definition numel (sh : list nat) : nat := fold_right Nat.mul 1%nat sh.

(** [t[0]] for a tensor whose first dimension is not empty. *)
Definition index0 {A} (t : Tensor A) : Tensor A :=
  mkTensor (tail (shape t)) (firstn (numel (tail (shape t))) (data t)).

(** Element-wise operation, as [clamp], [mul] and [to] are. *)
Definition tmap {A B} (f : A -> B) (t : Tensor A) : Tensor B :=
  mkTensor (shape t) (List.map f (data t)).

(** [rearrange(t, 'b d n -> d (b n)')] *)
Definition rearrange_b_d_n {A} (t : Tensor A) : Outcome (Tensor A) :=
  match shape t with
  | [b; d; n] =>
      Returned
        (mkTensor [d; (b * n)%nat]
           (flat_map (fun di =>
              flat_map (fun bi => firstn n (skipn ((bi * d + di) * n) (data t))) (seq 0 b))
              (seq 0 d)))
  | _ => Raised (mkExc EinopsError "Wrong shape: expected 3 dims")
  end.

(** ** Collaborators

    Everything the module calls and does not define: tensor arithmetic on
    loss values, the two networks, the losses, autograd, Adam, the rounding of
    the float type and the file system behind torchaudio.  Python float
    literals are the rationals they denote. *)
Record Torch : Type := mkTorch {
  Scalar : Type;      (* a zero-dimensional float tensor with its autograd graph *)
  Weights : Type;     (* the values of a module's parameters *)
  Grads : Type;       (* the [.grad] fields of a module's parameters *)
  AdamState : Type;   (* an optimizer's [state] *)
  Metadata : Type;    (* the second component of a batch *)
  zero : Scalar;                                   (* torch.tensor(0.).to(reals) *)
  add : Scalar -> Scalar -> Scalar;                (* a + b *)
  mul : Q -> Scalar -> Scalar;                     (* c * a, c a Python number *)
  detach : Scalar -> Scalar;
  std : Tensor Q -> Scalar;
  encode : Weights -> Tensor Q -> Outcome (Tensor Q * gmap string Scalar);
  decode : Weights -> Tensor Q -> Outcome (Tensor Q);
  sdstft : Tensor Q -> Tensor Q -> Scalar;
  l1_loss : Tensor Q -> Tensor Q -> Scalar;
  discriminator_loss : Weights -> Tensor Q -> Tensor Q -> Scalar * Scalar * Scalar;
  no_grads : Grads;
  backward : Scalar -> Grads * Grads -> Grads * Grads;
  adam : Q -> Q * Q -> AdamState -> Weights -> Grads -> AdamState * Weights;
  round : Q -> Q;
  torchaudio_save : string -> Tensor Z -> Z -> Outcome unit
}.

Section Training.

Context (T : Torch).

Local Abbreviation Scalar := (Scalar T).

(** ** AutoencoderTrainingWrapper *)

Inductive Submodule : Type := Autoencoder | Discriminator.

Record Net : Type := mkNet { weights : Weights T; grads : Grads T }.

(** An [optim.Adam] refers to the parameters it was built over; they stay
    owned by the module. *)
Record Adam : Type := mkAdam { params : Submodule; adam_lr : Q; betas : Q * Q }.

Record Wrapper : Type := mkWrapper {
  bottleneck : string;          (* self.autoencoder.bottleneck *)
  autoencoder : Net;
  discriminator : Net;
  warmed_up : bool;
  warmup_steps : Z;
  lr : Q
}.

(** Calls that leave [training_step], in the order they are made. *)
Inductive Call : Type :=
  | Encode (x : Tensor Q)
  | Decode (z : Tensor Q)
  | ZeroGrad (o : Adam)
  | ManualBackward (loss : Scalar)
  | Step (o : Adam)
  | LogDict (d : gmap string Scalar).

Record Training : Type := mkTraining {
  self : Wrapper;
  state_gen : AdamState T;      (* state of the optimizer over the autoencoder *)
  state_disc : AdamState T;     (* state of the optimizer over the discriminator *)
  trace : list Call
}.

(** [__init__]: the attributes the two methods read. *)
Definition init (bn : string) (ae disc : Weights T) (lr : Q) (warmup_steps : Z) : Wrapper :=
  mkWrapper bn (mkNet ae (no_grads T)) (mkNet disc (no_grads T)) false warmup_steps lr.

Definition configure_optimizers (w : Wrapper) : list Adam :=
  let opt_gen := mkAdam Autoencoder (lr w) (1 # 2, 9 # 10)%Q in
  let opt_disc := mkAdam Discriminator (lr w) (1 # 2, 9 # 10)%Q in
  [opt_gen; opt_disc].

(** *** Attribute writes and framework calls *)

Definition set_self (f : Wrapper -> Wrapper) : Py Training unit :=
  py_modify (fun s => mkTraining (f (self s)) (state_gen s) (state_disc s) (trace s)).

Definition set_warmed_up (b : bool) : Py Training unit :=
  set_self (fun w =>
    mkWrapper (bottleneck w) (autoencoder w) (discriminator w) b (warmup_steps w) (lr w)).

Definition get_self : Py Training Wrapper := fun s => (Returned (self s), s).

Definition call (c : Call) : Py Training unit :=
  py_modify (fun s => mkTraining (self s) (state_gen s) (state_disc s) (trace s ++ [c])).

Definition net_of (m : Submodule) (w : Wrapper) : Net :=
  match m with Autoencoder => autoencoder w | Discriminator => discriminator w end.

Definition set_net (m : Submodule) (n : Net) (w : Wrapper) : Wrapper :=
  match m with
  | Autoencoder => mkWrapper (bottleneck w) n (discriminator w) (warmed_up w) (warmup_steps w) (lr w)
  | Discriminator => mkWrapper (bottleneck w) (autoencoder w) n (warmed_up w) (warmup_steps w) (lr w)
  end.

(** [self.optimizers()], unpacked into two names: the optimizers Lightning
    keeps are the ones [configure_optimizers] built; nothing rebinds [lr]. *)
Definition optimizers : Py Training (Adam * Adam) :=
  let* w := get_self in
  match configure_optimizers w with
  | [a; b] => py_ret (a, b)
  | _ => py_raise (mkExc ValueError "wrong number of values to unpack")
  end.

Definition autoencoder_encode (x : Tensor Q) : Py Training (Tensor Q * gmap string Scalar) :=
  let* w := get_self in
  call (Encode x) ;;; py_lift (encode T (weights (autoencoder w)) x).

Definition autoencoder_decode (z : Tensor Q) : Py Training (Tensor Q) :=
  let* w := get_self in
  call (Decode z) ;;; py_lift (decode T (weights (autoencoder w)) z).

(** [opt.zero_grad()] clears the gradients of the optimizer's parameters. *)
Definition zero_grad (o : Adam) : Py Training unit :=
  call (ZeroGrad o) ;;;
  set_self (fun w => set_net (params o) (mkNet (weights (net_of (params o) w)) (no_grads T)) w).

(** [self.manual_backward(loss)] accumulates into the gradients of both
    networks; no weight changes. *)
Definition manual_backward (loss : Scalar) : Py Training unit :=
  call (ManualBackward loss) ;;;
  set_self (fun w =>
    let g := backward T loss (grads (autoencoder w), grads (discriminator w)) in
    set_net Discriminator (mkNet (weights (discriminator w)) (snd g))
      (set_net Autoencoder (mkNet (weights (autoencoder w)) (fst g)) w)).

(** [opt.step()] updates the weights of the optimizer's parameters from
    their gradients, and the optimizer's own state. *)
Definition opt_state (o : Adam) (s : Training) : AdamState T :=
  match params o with Autoencoder => state_gen s | Discriminator => state_disc s end.

Definition step (o : Adam) : Py Training unit :=
  call (Step o) ;;;
  py_modify (fun s =>
    let n := net_of (params o) (self s) in
    let upd := adam T (adam_lr o) (betas o) (opt_state o s) (weights n) (grads n) in
    let self' := set_net (params o) (mkNet (snd upd) (grads n)) (self s) in
    match params o with
    | Autoencoder => mkTraining self' (fst upd) (state_disc s) (trace s)
    | Discriminator => mkTraining self' (state_gen s) (fst upd) (trace s)
    end).

Definition log_dict (d : gmap string Scalar) : Py Training unit := call (LogDict d).

(** *** training_step *)

(** Lines 60-62: remove the extra dimension added by WebDataset. *)
Definition remove_extra_dimension (reals : Tensor Q) : Tensor Q :=
  if (ndim reals =? 4)%nat && (hd 0%nat (shape reals) =? 1)%nat then index0 reals else reals.

(** Lines 77-82: the discriminator's three losses, or zeros during warm-up. *)
Definition discriminator_losses (w : Wrapper) (reals decoded : Tensor Q)
  : Scalar * Scalar * Scalar :=
  if warmed_up w
  then discriminator_loss T (weights (discriminator w)) reals decoded
  else (zero T, zero T, zero T).

(** Lines 86-94: train the discriminator. *)
Definition train_discriminator (opt_disc : Adam) (loss_dis : Scalar) : Py Training Scalar :=
  let loss := loss_dis in
  let log := {[ "train/discriminator_loss" := detach T loss_dis ]} in
  zero_grad opt_disc ;;;
  manual_backward loss_dis ;;;
  step opt_disc ;;;
  log_dict log ;;;
  py_ret loss.

(** Lines 99-125: train the generator. *)
Definition train_generator (opt_gen : Adam) (latents : Tensor Q)
    (encoder_info : gmap string Scalar)
    (mrstft_loss l1_time_loss loss_adv feature_matching_distance : Scalar)
  : Py Training Scalar :=
  let loss_adv := mul T (1 # 10) loss_adv in
  let feature_matching_distance := mul T 10 feature_matching_distance in
  let loss := add T (add T mrstft_loss loss_adv) feature_matching_distance in
  let* w := get_self in
  let* (loss, kl_loss) :=
    (if String.eqb (bottleneck w) "vae"
     then
       let* kl := py_lift (py_getitem encoder_info "kl") in
       let kl_loss := mul T (1 # 1000) kl in
       py_ret (add T loss kl_loss, Some kl_loss)
     else py_ret (loss, None)) in
  zero_grad opt_gen ;;;
  manual_backward loss ;;;
  step opt_gen ;;;
  let log : gmap string Scalar :=
    <[ "train/latent_std" := detach T (std T latents) ]>
    (<[ "train/feature_matching" := detach T feature_matching_distance ]>
    (<[ "train/loss_adv" := detach T loss_adv ]>
    (<[ "train/l1_time_loss" := detach T l1_time_loss ]>
    (<[ "train/mrstft_loss" := detach T mrstft_loss ]>
    ({[ "train/loss" := detach T loss ]}))))) in
  let* w := get_self in
  let* log :=
    (if String.eqb (bottleneck w) "vae"
     then
       match kl_loss with
       | Some kl_loss => py_ret (<[ "train/kl_loss" := detach T kl_loss ]> log)
       | None => py_raise (mkExc UnboundLocalError "kl_loss")
       end
     else py_ret log) in
  log_dict log ;;;
  py_ret loss.

Definition training_step (global_step : Z) (batch : Tensor Q * Metadata T)
  : Py Training Scalar :=
  let '(reals, _) := batch in
  let reals := remove_extra_dimension reals in
  let* w := get_self in
  (if warmup_steps w <=? global_step then set_warmed_up true else py_ret tt) ;;;
  let* (opt_gen, opt_disc) := optimizers in
  let* (latents, encoder_info) := autoencoder_encode reals in
  let* decoded := autoencoder_decode latents in
  let mrstft_loss := sdstft T reals decoded in
  let l1_time_loss := l1_loss T reals decoded in
  let* w := get_self in
  let '(loss_dis, loss_adv, feature_matching_distance) :=
    discriminator_losses w reals decoded in
  if negb (global_step mod 2 =? 0) && warmed_up w
  then train_discriminator opt_disc loss_dis
  else train_generator opt_gen latents encoder_info
         mrstft_loss l1_time_loss loss_adv feature_matching_distance.

End Training.

(** ** AutoencoderDemoCallback *)

(** [x.clamp(-1, 1)] *)
Definition clamp_unit (x : Q) : Q := Qmin (Qmax x (-1)) 1.

(** Conversion of a float to an integer type discards the fraction. *)
Definition Qtrunc (x : Q) : Z := Z.quot (Qnum x) (Zpos (Qden x)).

(** [.to(torch.int16)] of an integer value: one that does not fit 16 signed
    bits is taken to wrap around. *)
Definition wrap_int16 (z : Z) : Z := (z + 32768) mod 65536 - 32768.

Section Demo.

Context (T : Torch).

(** [.clamp(-1, 1).mul(32767).to(torch.int16)] on one sample: the product is
    rounded to the tensor's float type. *)
Definition scaled_sample (x : Q) : Q := round T (clamp_unit x * 32767).

Definition to_int16_sample (x : Q) : Z := wrap_int16 (Qtrunc (scaled_sample x)).

Inductive Picture : Type :=
  | tokens_spectrogram_image (latents : Tensor Q)
  | audio_spectrogram_image (audio : Tensor Z).

(** The values of the logged dictionary. *)
Inductive Media : Type :=
  | Audio (filename : string) (sample_rate : Z) (caption : string)
  | pca_point_cloud (latents : Tensor Q)
  | Image (p : Picture).

(** What the callback does to the world outside the module. *)
Inductive Effect : Type :=
  | Saved (filename : string) (samples : Tensor Z) (sample_rate : Z)
  | WandbLog (d : gmap string Media) (step : Z)
  | Printed (line : string).

Record Callback : Type := mkCallback {
  demo_every : Z;
  demo_samples : Z;
  demo_dl : list (Tensor Q * Metadata T);    (* the batches the iterator has left *)
  sample_rate : Z;
  last_demo_step : Z
}.

Record Demo : Type := mkDemo { callback : Callback; effects : list Effect }.

(** [AutoencoderDemoCallback.__init__] *)
Definition new_callback (dl : list (Tensor Q * Metadata T))
    (demo_every sample_size sample_rate : Z) : Callback :=
  mkCallback demo_every sample_size dl sample_rate (-1).

Definition get_callback : Py Demo Callback := fun s => (Returned (callback s), s).

Definition effect (e : Effect) : Py Demo unit :=
  py_modify (fun s => mkDemo (callback s) (effects s ++ [e])).

(** The callback once [self.last_demo_step = g] has run. *)
Definition started (s : Demo) (g : Z) : Demo :=
  let c := callback s in
  mkDemo (mkCallback (demo_every c) (demo_samples c) (demo_dl c) (sample_rate c) g)
         (effects s).

Definition set_last_demo_step (g : Z) : Py Demo unit := py_modify (fun s => started s g).

(** [next(self.demo_dl)] *)
Definition next_demo_dl : Py Demo (Tensor Q * Metadata T) :=
  fun s =>
    let c := callback s in
    match demo_dl c with
    | [] => (Raised (mkExc StopIteration ""), s)
    | b :: rest =>
        (Returned b,
         mkDemo (mkCallback (demo_every c) (demo_samples c) rest (sample_rate c)
                            (last_demo_step c))
                (effects s))
    end.

(** [torchaudio.save(filename, samples, rate)]: the file exists afterwards
    unless the call raised. *)
Definition save (filename : string) (samples : Tensor Z) (rate : Z) : Py Demo unit :=
  py_lift (torchaudio_save T filename samples rate) ;;;
  effect (Saved filename samples rate).

Definition print (line : string) : Py Demo unit := effect (Printed line).

(** Line 199: [print(f'{type(e).__name__}: {e}')] *)
Definition print_exception (e : PyExc) : Py Demo unit :=
  print (class_name (exc_class e) +:+ ": " +:+ exc_msg e).

(** [@rank_zero_only]: the decorated function runs on rank 0 and is skipped,
    returning [None], on every other rank.  ([@torch.no_grad()] changes no
    value.) *)
Definition rank_zero_only (rank : nat) (fn : Py Demo unit) : Py Demo unit :=
  if (rank =? 0)%nat then fn else py_ret tt.

(** Lines 156-197, the body of the [try]. *)
Definition render_demo (global_step : Z) (module : Wrapper T) : Py Demo unit :=
  let* (demo_reals, _) := next_demo_dl in
  let encoder_input := demo_reals in
  (* encode without return_info yields the latents alone *)
  let* (latents, _) := py_lift (encode T (weights T (autoencoder T module)) encoder_input) in
  let* fakes := py_lift (decode T (weights T (autoencoder T module)) latents) in
  (* Put the demos together *)
  let* fakes := py_lift (rearrange_b_d_n fakes) in
  let* demo_reals := py_lift (rearrange_b_d_n demo_reals) in
  let log_dict : gmap string Media := ∅ in
  let* self := get_callback in
  let filename := "recon_" +:+ format_08 global_step +:+ ".wav" in
  let fakes := tmap to_int16_sample fakes in
  save filename fakes (sample_rate self) ;;;
  let reals_filename := "reals_" +:+ format_08 global_step +:+ ".wav" in
  let demo_reals := tmap to_int16_sample demo_reals in
  save reals_filename demo_reals (sample_rate self) ;;;
  let log_dict := <[ "recon" := Audio filename (sample_rate self) "Reconstructed" ]> log_dict in
  let log_dict := <[ "real" := Audio reals_filename (sample_rate self) "Real" ]> log_dict in
  let log_dict := <[ "embeddings_3dpca" := pca_point_cloud latents ]> log_dict in
  let log_dict := <[ "embeddings_spec" := Image (tokens_spectrogram_image latents) ]> log_dict in
  let log_dict := <[ "real_melspec_left" := Image (audio_spectrogram_image demo_reals) ]> log_dict in
  let log_dict := <[ "recon_melspec_left" := Image (audio_spectrogram_image fakes) ]> log_dict in
  effect (WandbLog log_dict global_step).

Definition on_train_batch_end (rank : nat) (global_step : Z) (module : Wrapper T)
  : Py Demo unit :=
  rank_zero_only rank (
    let* self := get_callback in
    let* r := py_lift (py_mod (global_step - 1) (demo_every self)) in
    if negb (r =? 0) || (last_demo_step self =? global_step)
    then py_ret tt
    else
      set_last_demo_step global_step ;;;
      py_try_except_Exception (render_demo global_step module) print_exception).

End Demo.

(** ** Observations on traces and runs *)

(** The optimizers whose [step] a trace contains, in order. *)
Fixpoint stepped {T : Torch} (tr : list (Call T)) : list Adam :=
  match tr with
  | [] => []
  | Step _ o :: rest => o :: stepped rest
  | _ :: rest => stepped rest
  end.

(** The tensors a trace shows the encoder was given, in order. *)
Fixpoint encoded {T : Torch} (tr : list (Call T)) : list (Tensor Q) :=
  match tr with
  | [] => []
  | Encode _ x :: rest => x :: encoded rest
  | _ :: rest => encoded rest
  end.

(** The losses a trace shows [manual_backward] was given, in order. *)
Fixpoint backpropagated {T : Torch} (tr : list (Call T)) : list (Scalar T) :=
  match tr with
  | [] => []
  | ManualBackward _ loss :: rest => loss :: backpropagated rest
  | _ :: rest => backpropagated rest
  end.

(** The dictionaries a trace shows were logged, in order. *)
Fixpoint logged {T : Torch} (tr : list (Call T)) : list (gmap string (Scalar T)) :=
  match tr with
  | [] => []
  | LogDict _ d :: rest => d :: logged rest
  | _ :: rest => logged rest
  end.

(** The test of line 85, on the attributes as [training_step] found them:
    line 65 has set the flag by then when the warm-up is over. *)
Definition trains_discriminator {T : Torch} (w : Wrapper T) (global_step : Z) : bool :=
  negb (global_step mod 2 =? 0) && (warmed_up T w || (warmup_steps T w <=? global_step)).

(** [trained_to T g s]: [s] is what a freshly built wrapper has become after
    some completed training steps whose global steps never decreased and
    stayed at or below [g].  A run that resumes from a checkpoint starts
    from a fresh wrapper too, at the global step the checkpoint restored. *)
Inductive trained_to (T : Torch) : Z -> Training T -> Prop :=
  | trained_fresh bn ae disc rate wu sg sd g :
      trained_to T g (mkTraining T (init T bn ae disc rate wu) sg sd [])
  | trained_step g s g' batch loss s' :
      trained_to T g s ->
      g <= g' ->
      training_step T g' batch s = (Returned loss, s') ->
      trained_to T g' s'.

(** The test of line 150, for a non-zero [demo_every]: a demo is due when
    the step before is a multiple of [demo_every] and no demo was started at
    this step. *)
Definition due {T : Torch} (c : Callback T) (global_step : Z) : bool :=
  ((global_step - 1) mod demo_every T c =? 0) && negb (last_demo_step T c =? global_step).

(** An effect is [converted] when it is no saved file, or a file whose
    samples went through the int16 conversion. *)
Definition converted {T : Torch} (e : Effect) : Prop :=
  match e with
  | Saved _ samples _ => exists src, samples = tmap (to_int16_sample T) src
  | _ => True
  end.

(** [later T s s']: zero or more completed training steps, at any global
    steps, lead from [s] to [s']. *)
Inductive later (T : Torch) : Training T -> Training T -> Prop :=
  | later_now s : later T s s
  | later_step s g batch loss s' s'' :
      training_step T g batch s = (Returned loss, s') ->
      later T s' s'' ->
      later T s s''.

(** [demo_calls T rank s demos g]: [s] is what a new callback has become on
    process [rank] after some calls of [on_train_batch_end] that returned,
    at global steps that never decreased and stayed at or below [g];
    [demos] lists, latest first, the global steps at which the test of
    line 150 let a demo start. *)
Inductive demo_calls (T : Torch) (rank : nat) : Demo T -> list Z -> Z -> Prop :=
  | demo_calls_new dl every size rate :
      demo_calls T rank (mkDemo T (new_callback T dl every size rate) []) [] 0
  | demo_calls_next s demos g gs module s' :
      demo_calls T rank s demos g ->
      g <= gs ->
      on_train_batch_end T rank gs module s = (Returned tt, s') ->
      demo_calls T rank s'
        (if (rank =? 0)%nat && due (callback T s) gs then gs :: demos else demos) gs.

(** ** A small instance of the collaborators

    Losses are rationals, weights count the updates applied to them, and the
    encoder reports the dictionary [info] or raises [enc_exc]; it serves to run
    the methods on concrete inputs. *)
Definition toy (info : gmap string Q) (enc_exc : option PyExc) (l1 : Q) : Torch :=
  {| Scalar := Q;
     Weights := Z;
     Grads := Q;
     AdamState := nat;
     Metadata := unit;
     zero := 0%Q;
     add := Qplus;
     mul := Qmult;
     detach := fun a => a;
     std := fun _ => 0%Q;
     encode := fun _ x =>
       match enc_exc with
       | Some e => Raised e
       | None => Returned (x, info)
       end;
     decode := fun _ z => Returned z;
     sdstft := fun _ _ => 3%Q;
     l1_loss := fun _ _ => l1;
     discriminator_loss := fun _ _ _ => (5, 7, 11)%Q;
     no_grads := 0%Q;
     backward := fun loss '(ga, gd) => (ga + loss, gd + loss)%Q;
     adam := fun _ _ st w _ => (S st, w + 1);
     round := fun x => x;
     torchaudio_save := fun _ _ _ => Returned tt |}.

(** A stereo batch of two three-sample clips. *)
Definition clip : Tensor Q :=
  mkTensor [2; 2; 3]%nat
    [1 # 2; -3 # 2; 0; 1 # 4; 2; -1; -1 # 3; 1; 7 # 8; -5; 0; 1 # 32767]%Q.

(** The same batch with the extra leading dimension WebDataset adds. *)
Definition wrapped_clip : Tensor Q := mkTensor (1%nat :: shape clip) (data clip).

(** The state training starts in: a fresh wrapper, fresh optimizers, nothing
    called yet. *)
Definition toy_start (info : gmap string Q) (enc_exc : option PyExc) (l1 : Q)
    (bn : string) (wu : Z) : Training (toy info enc_exc l1) :=
  let T := toy info enc_exc l1 in
  mkTraining T (init T bn 0 0 (1 # 10000)%Q wu) 0%nat 0%nat [].

(** A callback over a one-batch demo loader, before its first demo. *)
Definition toy_demo (info : gmap string Q) (enc_exc : option PyExc) (demo_every : Z)
  : Demo (toy info enc_exc 0) :=
  let T := toy info enc_exc 0 in
  mkDemo T (new_callback T [(clip, tt)] demo_every 65536 48000) [].

Definition toy_module (info : gmap string Q) (enc_exc : option PyExc)
  : Wrapper (toy info enc_exc 0) :=
  init (toy info enc_exc 0) "none" 0 0 (1 # 10000)%Q 150000.

(** ** __init__: the STFT resolutions of the spectral loss (lines 33-39) *)




(** ** More observations on runs *)

(** The training state with the gradients of one network replaced. *)
Definition with_grads {T : Torch} (m : Submodule) (g : Grads T) (s : Training T)
  : Training T :=
  mkTraining T
    (set_net T m (mkNet T (weights T (net_of T m (self T s))) g) (self T s))
    (state_gen T s) (state_disc T s) (trace T s).

(** The network whose optimizer the step at [global_step] selects. *)
Definition selected {T : Torch} (w : Wrapper T) (global_step : Z) : Submodule :=
  if trains_discriminator w global_step then Discriminator else Autoencoder.

(** [warmup_run T s n s']: [n] completed training steps, each at a global
    step below the wrapper's [warmup_steps], lead from [s] to [s']. *)
Inductive warmup_run (T : Torch) : Training T -> nat -> Training T -> Prop :=
  | warmup_run_none s : warmup_run T s 0 s
  | warmup_run_step s g batch loss s' n s'' :
      g < warmup_steps T (self T s) ->
      training_step T g batch s = (Returned loss, s') ->
      warmup_run T s' n s'' ->
      warmup_run T s (S n) s''.

(** * Properties *)

(** Closes an equation between closed terms by evaluating both sides. *)
Ltac by_vm := lazymatch goal with |- _ = ?b => vm_cast_no_check (@eq_refl _ b) end.

(** ** The helpers on small inputs *)

Example format_08_pads : format_08 2001 = "00002001".
Proof. reflexivity. Qed.

Example format_08_sign : format_08 (-5) = "-0000005".
Proof. reflexivity. Qed.

Example format_08_wide : format_08 123456789 = "123456789".
Proof. reflexivity. Qed.

Example py_mod_floors : py_mod (-1) 2000 = Returned 1999.
Proof. reflexivity. Qed.

Example rearrange_clip :
  rearrange_b_d_n clip
  = Returned (mkTensor [2; 6]%nat
                [1 # 2; -3 # 2; 0; -1 # 3; 1; 7 # 8; 1 # 4; 2; -1; -5; 0; 1 # 32767]%Q).
Proof. reflexivity. Qed.

Example rearrange_needs_three_dimensions :
  rearrange_b_d_n wrapped_clip = Raised (mkExc EinopsError "Wrong shape: expected 3 dims").
Proof. reflexivity. Qed.

Example wrap_int16_wraps : wrap_int16 32768 = -32768.
Proof. reflexivity. Qed.

Section TrainingFacts.

Context (T : Torch).

Local Abbreviation Scalar := (Scalar T).

Lemma stepped_app (tr1 tr2 : list (Call T)) :
  stepped (tr1 ++ tr2) = stepped tr1 ++ stepped tr2.
Proof.
  induction tr1 as [|c tr1 IH]; simpl; [reflexivity|].
  destruct c; simpl; rewrite IH; reflexivity.
Qed.

(** Unfolds the statements of the monad down to state-passing terms. *)
Ltac unfold_py :=
  unfold train_discriminator, train_generator, zero_grad, manual_backward, step,
    log_dict, opt_state, optimizers, autoencoder_encode, autoencoder_decode, set_warmed_up,
    set_self, get_self, call, py_bind, py_ret, py_raise, py_lift, py_modify,
    py_get, py_getitem in *;
  simpl in *.

(** What a completed step did, along either branch. *)
Lemma training_step_inv gs reals m s loss s' :
  training_step T gs (reals, m) s = (Returned loss, s') ->
  let w := self T s in
  let x := remove_extra_dimension reals in
  let flag := warmed_up T w || (warmup_steps T w <=? gs) in
  let opt_gen := mkAdam Autoencoder (lr T w) (1 # 2, 9 # 10)%Q in
  let opt_disc := mkAdam Discriminator (lr T w) (1 # 2, 9 # 10)%Q in
  exists latents info decoded,
    encode T (weights T (autoencoder T w)) x = Returned (latents, info) /\
    decode T (weights T (autoencoder T w)) latents = Returned decoded /\
    let mrstft_loss := sdstft T x decoded in
    let l1_time_loss := l1_loss T x decoded in
    let losses :=
      if flag then discriminator_loss T (weights T (discriminator T w)) x decoded
      else (zero T, zero T, zero T) in
    let loss_dis := fst (fst losses) in
    let loss_adv := mul T (1 # 10) (snd (fst losses)) in
    let fmd := mul T 10 (snd losses) in
    if negb (gs mod 2 =? 0) && flag
    then
      let g := backward T loss_dis (grads T (autoencoder T w), no_grads T) in
      let upd := adam T (lr T w) (1 # 2, 9 # 10)%Q (state_disc T s)
                   (weights T (discriminator T w)) (snd g) in
      loss = loss_dis /\
      s' = mkTraining T
             (mkWrapper T (bottleneck T w)
                (mkNet T (weights T (autoencoder T w)) (fst g))
                (mkNet T (snd upd) (snd g))
                flag (warmup_steps T w) (lr T w))
             (state_gen T s) (fst upd)
             (trace T s ++
                [Encode T x; Decode T latents; ZeroGrad T opt_disc;
                 ManualBackward T loss_dis; Step T opt_disc;
                 LogDict T {[ "train/discriminator_loss" := detach T loss_dis ]}])
    else
      let base := add T (add T mrstft_loss loss_adv) fmd in
      let log0 : gmap string Scalar :=
        <[ "train/latent_std" := detach T (std T latents) ]>
        (<[ "train/feature_matching" := detach T fmd ]>
        (<[ "train/loss_adv" := detach T loss_adv ]>
        (<[ "train/l1_time_loss" := detach T l1_time_loss ]>
        (<[ "train/mrstft_loss" := detach T mrstft_loss ]>
        ({[ "train/loss" := detach T loss ]}))))) in
      let g := backward T loss (no_grads T, grads T (discriminator T w)) in
      let upd := adam T (lr T w) (1 # 2, 9 # 10)%Q (state_gen T s)
                   (weights T (autoencoder T w)) (fst g) in
      exists log,
        (if String.eqb (bottleneck T w) "vae"
         then exists kl, info !! "kl" = Some kl /\
                loss = add T base (mul T (1 # 1000) kl) /\
                log = <[ "train/kl_loss" := detach T (mul T (1 # 1000) kl) ]> log0
         else loss = base /\ log = log0) /\
        s' = mkTraining T
               (mkWrapper T (bottleneck T w)
                  (mkNet T (snd upd) (fst g))
                  (mkNet T (weights T (discriminator T w)) (snd g))
                  flag (warmup_steps T w) (lr T w))
               (fst upd) (state_disc T s)
               (trace T s ++
                  [Encode T x; Decode T latents; ZeroGrad T opt_gen;
                   ManualBackward T loss; Step T opt_gen; LogDict T log]).
Proof.
  destruct s as [w sg sd tr]; destruct w as [bn ae di wup wu rate].
  unfold training_step, discriminator_losses. unfold_py.
  set (x := remove_extra_dimension reals).
  destruct (wu <=? gs) eqn:Hwu, wup; simpl;
    (destruct (encode T (weights T ae) x) as [[latents info]|e] eqn:He; simpl;
       [|discriminate]);
    (destruct (decode T (weights T ae) latents) as [decoded|e] eqn:Hd; simpl;
       [|discriminate]);
    intros Hrun; exists latents, info, decoded;
    (split; [assumption || reflexivity|]); (split; [assumption || reflexivity|]);
    destruct (discriminator_loss T (weights T di) x decoded) as [[ld la] fm];
    simpl in *;
    destruct (negb (gs mod 2 =? 0)); simpl in *;
    try (rewrite <- ?app_assoc in Hrun; simpl in Hrun;
         injection Hrun as <- <-; split; reflexivity);
    (destruct (String.eqb bn "vae") eqn:Hv; simpl in *;
       [destruct (info !! "kl") as [kl|] eqn:Hkl; simpl in *; [|discriminate]|]);
    rewrite Hv in Hrun; simpl in Hrun;
    rewrite <- ?app_assoc in Hrun; simpl in Hrun; injection Hrun as <- <-;
    eexists; (split; [|reflexivity]);
    first [exists kl; repeat split; reflexivity | split; reflexivity].
Qed.

(** A step completes when encoder and decoder return and, on a generator step
    of a variational autoencoder, the encoder reported its KL value. *)
Lemma training_step_returns gs reals m s latents info decoded :
  let w := self T s in
  let x := remove_extra_dimension reals in
  encode T (weights T (autoencoder T w)) x = Returned (latents, info) ->
  decode T (weights T (autoencoder T w)) latents = Returned decoded ->
  (trains_discriminator w gs = false -> bottleneck T w = "vae" -> is_Some (info !! "kl")) ->
  exists loss s', training_step T gs (reals, m) s = (Returned loss, s').
Proof.
  destruct s as [w sg sd tr]; destruct w as [bn ae di wup wu rate].
  unfold training_step, discriminator_losses, trains_discriminator. unfold_py.
  intros He Hd Hkl.
  destruct (wu <=? gs) eqn:Hwu, wup; simpl; rewrite He; simpl; rewrite Hd; simpl;
    destruct (discriminator_loss T (weights T di) (remove_extra_dimension reals) decoded)
      as [[ld la] fm];
    simpl in *;
    destruct (negb (gs mod 2 =? 0)); simpl in *; try (eexists; eexists; reflexivity);
    (destruct (String.eqb bn "vae") eqn:Hv; simpl in *;
       [apply String.eqb_eq in Hv; destruct (Hkl eq_refl Hv) as [kl ->]; simpl;
        subst bn; simpl
       |rewrite Hv; simpl]);
    eexists; eexists; reflexivity.
Qed.

Lemma encoded_app (tr1 tr2 : list (Call T)) :
  encoded (tr1 ++ tr2) = encoded tr1 ++ encoded tr2.
Proof.
  induction tr1 as [|c tr1 IH]; simpl; [reflexivity|].
  destruct c; simpl; rewrite IH; reflexivity.
Qed.

(** Whatever becomes of the step, the encoder was called once, on the batch
    as lines 60-62 left it. *)
Lemma training_step_encoded gs reals m s :
  encoded (trace T (snd (training_step T gs (reals, m) s)))
  = encoded (trace T s) ++ [remove_extra_dimension reals].
Proof.
  destruct s as [w sg sd tr]; destruct w as [bn ae di wup wu rate].
  unfold training_step, discriminator_losses. unfold_py.
  set (x := remove_extra_dimension reals).
  destruct (wu <=? gs), wup; simpl;
    (destruct (encode T (weights T ae) x) as [[latents info]|e]; simpl;
       [|rewrite encoded_app; reflexivity]);
    (destruct (decode T (weights T ae) latents) as [decoded|e]; simpl;
       [|rewrite <- ?app_assoc, encoded_app; reflexivity]);
    destruct (discriminator_loss T (weights T di) x decoded) as [[ld la] fm];
    simpl;
    destruct (negb (gs mod 2 =? 0)); simpl;
    try (rewrite <- ?app_assoc, encoded_app; reflexivity);
    (destruct (String.eqb bn "vae") eqn:Hv; simpl;
       [destruct (info !! "kl") as [kl|]; simpl|]);
    rewrite ?Hv; simpl; rewrite <- ?app_assoc, encoded_app; reflexivity.
Qed.

Lemma odd_mod2 (gs : Z) : negb (gs mod 2 =? 0) = Z.odd gs.
Proof. rewrite Zmod_odd. destruct (Z.odd gs); reflexivity. Qed.

(** The flag after a completed step; the threshold itself is never written. *)
Lemma training_step_flag gs batch s loss s' :
  training_step T gs batch s = (Returned loss, s') ->
  warmed_up T (self T s') = warmed_up T (self T s) || (warmup_steps T (self T s) <=? gs) /\
  warmup_steps T (self T s') = warmup_steps T (self T s).
Proof.
  destruct batch as [reals m]. intros Hrun.
  destruct (training_step_inv _ _ _ _ _ _ Hrun) as (latents & info & decoded & _ & _ & H).
  cbv zeta in H.
  destruct (negb (gs mod 2 =? 0) && _).
  - destruct H as [_ ->]. split; reflexivity.
  - destruct H as (log & _ & ->). split; reflexivity.
Qed.

(** Once set, the flag witnesses a step at or beyond the threshold. *)
Lemma trained_to_warmed_up g s :
  trained_to T g s -> warmed_up T (self T s) = true -> warmup_steps T (self T s) <= g.
Proof.
  induction 1 as [|g s g' batch loss s' Hs IH Hle Hrun]; simpl.
  - discriminate.
  - destruct (training_step_flag _ _ _ _ _ Hrun) as [-> ->].
    intros [Hw | Hw]%orb_true_iff.
    + specialize (IH Hw). lia.
    + apply Z.leb_le in Hw. exact Hw.
Qed.

(** C7: [configure_optimizers] returns exactly two Adam optimizers, generator
    first and discriminator second, the first over the autoencoder's
    parameters and the second over the discriminator's, both with the
    wrapper's learning rate and betas (0.5, 0.9); they are the pair
    [training_step] unpacks. *)
Theorem configure_optimizers_two_adams (w : Wrapper T) :
  configure_optimizers T w
  = [mkAdam Autoencoder (lr T w) (1 # 2, 9 # 10)%Q;
     mkAdam Discriminator (lr T w) (1 # 2, 9 # 10)%Q] /\
  (forall opt_gen opt_disc,
     configure_optimizers T w = [opt_gen; opt_disc] ->
     net_of T (params opt_gen) w = autoencoder T w /\
     net_of T (params opt_disc) w = discriminator T w /\
     adam_lr opt_gen = lr T w /\ adam_lr opt_disc = lr T w /\
     betas opt_gen = (1 # 2, 9 # 10)%Q /\ betas opt_disc = (1 # 2, 9 # 10)%Q) /\
  (forall s,
     self T s = w ->
     optimizers T s
     = (Returned (mkAdam Autoencoder (lr T w) (1 # 2, 9 # 10)%Q,
                  mkAdam Discriminator (lr T w) (1 # 2, 9 # 10)%Q), s)).
Proof.
  split; [reflexivity|]. split.
  - intros opt_gen opt_disc [= <- <-]. repeat split.
  - intros s <-. reflexivity.
Qed.

(** C2: in a training step after warm-up (global_step >= warmup_steps) exactly
    one of the two optimizers of [configure_optimizers] is stepped, the
    discriminator's when global_step is odd and the generator's when it is
    even, and the weights (and optimizer state) of the other one are as they
    were. *)
Theorem alternating_optimizer_steps gs batch s loss s' :
  warmup_steps T (self T s) <= gs ->
  training_step T gs batch s = (Returned loss, s') ->
  exists opt_gen opt_disc,
    configure_optimizers T (self T s) = [opt_gen; opt_disc] /\
    let selected := if Z.odd gs then opt_disc else opt_gen in
    let other := if Z.odd gs then opt_gen else opt_disc in
    stepped (trace T s') = stepped (trace T s) ++ [selected] /\
    (exists g,
       weights T (net_of T (params selected) (self T s'))
       = snd (adam T (adam_lr selected) (betas selected) (opt_state T selected s)
                (weights T (net_of T (params selected) (self T s))) g)) /\
    weights T (net_of T (params other) (self T s'))
    = weights T (net_of T (params other) (self T s)) /\
    opt_state T other s' = opt_state T other s.
Proof.
  destruct batch as [reals m]. intros Hwu Hrun.
  destruct (training_step_inv _ _ _ _ _ _ Hrun) as (latents & info & decoded & _ & _ & H).
  cbv zeta in H. apply Z.leb_le in Hwu. rewrite Hwu, orb_true_r, andb_true_r, odd_mod2 in H.
  eexists; eexists; split; [reflexivity|]. cbv zeta.
  destruct (Z.odd gs).
  - destruct H as [_ ->]. simpl. rewrite stepped_app. simpl.
    repeat split; eauto.
  - destruct H as (log & _ & ->). simpl. rewrite stepped_app. simpl.
    repeat split; eauto.
Qed.

Lemma later_warmed_up s s' :
  later T s s' -> warmed_up T (self T s) = true -> warmed_up T (self T s') = true.
Proof.
  induction 1 as [|s g batch loss s' s'' Hrun _ IH]; [tauto|].
  intros Hw. apply IH.
  destruct (training_step_flag _ _ _ _ _ Hrun) as [-> _]. rewrite Hw. reflexivity.
Qed.

(** C3: along a run from a fresh wrapper, a step with
    global_step < warmup_steps computes zero tensors for the discriminator
    loss, the adversarial loss and the feature-matching distance, takes the
    generator branch (only the generator optimizer is stepped, nothing is
    logged for the discriminator); the flag is True after a step exactly when
    global_step >= warmup_steps, and no later step resets it. *)
Theorem warmup_schedule g s gs batch loss s' :
  trained_to T g s ->
  g <= gs ->
  training_step T gs batch s = (Returned loss, s') ->
  (gs < warmup_steps T (self T s) ->
   let x := remove_extra_dimension (fst batch) in
   exists latents info decoded log,
     encode T (weights T (autoencoder T (self T s))) x = Returned (latents, info) /\
     decode T (weights T (autoencoder T (self T s))) latents = Returned decoded /\
     discriminator_losses T (self T s) x decoded = (zero T, zero T, zero T) /\
     trains_discriminator (self T s) gs = false /\
     stepped (trace T s') = stepped (trace T s) ++ [mkAdam Autoencoder (lr T (self T s)) (1 # 2, 9 # 10)%Q] /\
     trace T s'
     = trace T s ++
       [Encode T x; Decode T latents;
        ZeroGrad T (mkAdam Autoencoder (lr T (self T s)) (1 # 2, 9 # 10)%Q);
        ManualBackward T loss;
        Step T (mkAdam Autoencoder (lr T (self T s)) (1 # 2, 9 # 10)%Q);
        LogDict T log] /\
     log !! "train/loss_adv" = Some (detach T (mul T (1 # 10) (zero T))) /\
     log !! "train/feature_matching" = Some (detach T (mul T 10 (zero T))) /\
     log !! "train/discriminator_loss" = None /\
     weights T (discriminator T (self T s')) = weights T (discriminator T (self T s))) /\
  (warmed_up T (self T s') = true <-> warmup_steps T (self T s) <= gs) /\
  (warmed_up T (self T s) = true -> warmed_up T (self T s') = true) /\
  (warmed_up T (self T s') = true ->
   forall s'', later T s' s'' -> warmed_up T (self T s'') = true) /\
  warmup_steps T (self T s') = warmup_steps T (self T s).
Proof.
  intros Hreach Hle Hrun.
  pose proof (trained_to_warmed_up _ _ Hreach) as Hinv.
  destruct (training_step_flag _ _ _ _ _ Hrun) as [Hflag Hsame].
  split; [|split; [|split; [|split]]].
  - intros Hlt. destruct batch as [reals m]. simpl.
    destruct (training_step_inv _ _ _ _ _ _ Hrun) as (latents & info & decoded & He & Hd & H).
    cbv zeta in H.
    assert (Hcold : warmed_up T (self T s) = false).
    { destruct (warmed_up T (self T s)); [|reflexivity]. specialize (Hinv eq_refl). lia. }
    assert (Hnot : (warmup_steps T (self T s) <=? gs) = false) by (apply Z.leb_gt; lia).
    rewrite Hcold, Hnot in H. simpl in H. rewrite andb_false_r in H.
    destruct H as (log & Hlog & ->).
    exists latents, info, decoded, log.
    split; [exact He|]. split; [exact Hd|].
    split; [unfold discriminator_losses; rewrite Hcold; reflexivity|].
    split; [unfold trains_discriminator; rewrite Hcold, Hnot, andb_false_r; reflexivity|].
    split; [simpl; rewrite stepped_app; reflexivity|].
    split; [reflexivity|].
    simpl.
    destruct (String.eqb _ "vae").
    + destruct Hlog as (kl & _ & _ & ->). repeat split.
    + destruct Hlog as [_ ->]. repeat split.
  - rewrite Hflag. rewrite orb_true_iff, Z.leb_le. split; [|tauto].
    intros [Hw | Hw]; [specialize (Hinv Hw); lia | exact Hw].
  - rewrite Hflag. intros ->. reflexivity.
  - intros Hw s'' Hlater. exact (later_warmed_up _ _ Hlater Hw).
  - exact Hsame.
Qed.

(** C4: on a generator step the KL term, 1e-3 times the value the encoder
    reported under 'kl', is added to the loss and logged as 'train/kl_loss'
    when the bottleneck is "vae"; for any other bottleneck the loss is the sum
    of the three other terms and no 'train/kl_loss' is logged. *)
Theorem kl_term_iff_vae gs reals m s loss s' :
  trains_discriminator (self T s) gs = false ->
  training_step T gs (reals, m) s = (Returned loss, s') ->
  let w := self T s in
  let x := remove_extra_dimension reals in
  exists latents info decoded loss_dis loss_adv fmd log,
    encode T (weights T (autoencoder T w)) x = Returned (latents, info) /\
    decode T (weights T (autoencoder T w)) latents = Returned decoded /\
    (if warmed_up T w || (warmup_steps T w <=? gs)
     then discriminator_loss T (weights T (discriminator T w)) x decoded
     else (zero T, zero T, zero T)) = (loss_dis, loss_adv, fmd) /\
    let base := add T (add T (sdstft T x decoded) (mul T (1 # 10) loss_adv))
                  (mul T 10 fmd) in
    trace T s'
    = trace T s ++
      [Encode T x; Decode T latents;
       ZeroGrad T (mkAdam Autoencoder (lr T w) (1 # 2, 9 # 10)%Q);
       ManualBackward T loss;
       Step T (mkAdam Autoencoder (lr T w) (1 # 2, 9 # 10)%Q);
       LogDict T log] /\
    (bottleneck T w = "vae" ->
     exists kl, info !! "kl" = Some kl /\
       loss = add T base (mul T (1 # 1000) kl) /\
       log !! "train/kl_loss" = Some (detach T (mul T (1 # 1000) kl))) /\
    (bottleneck T w <> "vae" ->
     loss = base /\ log !! "train/kl_loss" = None).
Proof.
  unfold trains_discriminator. intros Hgen Hrun.
  destruct (training_step_inv _ _ _ _ _ _ Hrun) as (latents & info & decoded & He & Hd & H).
  cbv zeta in *. rewrite Hgen in H.
  destruct H as (log & Hlog & ->).
  destruct (if warmed_up T (self T s) || (warmup_steps T (self T s) <=? gs)
            then discriminator_loss T (weights T (discriminator T (self T s)))
                   (remove_extra_dimension reals) decoded
            else (zero T, zero T, zero T)) as [[ld la] fm] eqn:Hl.
  exists latents, info, decoded, ld, la, fm, log.
  split; [exact He|]. split; [exact Hd|]. split; [exact Hl|].
  split; [reflexivity|]. simpl in Hlog.
  destruct (String.eqb (bottleneck T (self T s)) "vae") eqn:Hv.
  - destruct Hlog as (kl & Hkl & -> & ->). split.
    + intros _. exists kl. split; [exact Hkl|]. split; [reflexivity|].
      apply lookup_insert_eq.
    + intros Hne. apply String.eqb_eq in Hv. contradiction.
  - destruct Hlog as [-> ->]. split.
    + intros Heq. apply String.eqb_neq in Hv. contradiction.
    + intros _. split; reflexivity.
Qed.

Lemma remove_extra_dimension_4d (reals : Tensor Q) a b c :
  shape reals = [1; a; b; c]%nat ->
  length (data reals) = numel (shape reals) ->
  remove_extra_dimension reals = mkTensor [a; b; c]%nat (data reals).
Proof.
  intros Hsh Hlen. unfold remove_extra_dimension, ndim, index0.
  rewrite Hsh in *. simpl hd. simpl tail. simpl length. simpl andb. cbv iota.
  f_equal. apply firstn_all2.
  rewrite Hlen. unfold numel. simpl. lia.
Qed.

Lemma remove_extra_dimension_other (reals : Tensor Q) :
  (forall a b c, shape reals <> [1; a; b; c]%nat) ->
  remove_extra_dimension reals = reals.
Proof.
  intros Hsh. unfold remove_extra_dimension, ndim.
  destruct (shape reals) as [|d0 [|d1 [|d2 [|d3 [|d4 rest]]]]] eqn:E; try reflexivity.
  simpl. destruct (Nat.eqb_spec d0 1) as [->|]; [|reflexivity].
  exfalso. exact (Hsh d1 d2 d3 eq_refl).
Qed.

(** C10: a batch tensor with exactly four dimensions of which the first has
    size 1 reaches the encoder without that dimension (same elements, the
    three remaining sizes); a tensor of any other shape reaches it as it came;
    the encoder is called once per step. *)
Theorem extra_dimension_removed gs reals m s :
  length (data reals) = numel (shape reals) ->
  exists x,
    encoded (trace T (snd (training_step T gs (reals, m) s)))
    = encoded (trace T s) ++ [x] /\
    (forall a b c, shape reals = [1; a; b; c]%nat -> x = mkTensor [a; b; c]%nat (data reals)) /\
    ((forall a b c, shape reals <> [1; a; b; c]%nat) -> x = reals).
Proof.
  intros Hlen. exists (remove_extra_dimension reals).
  split; [apply training_step_encoded|]. split.
  - intros a b c Hsh. apply remove_extra_dimension_4d; assumption.
  - apply remove_extra_dimension_other.
Qed.

End TrainingFacts.

(** ** The training step on concrete inputs *)

(** C1: the loss handed to [manual_backward] on a generator step is the
    spectral loss plus the weighted adversarial and feature-matching terms;
    the time-domain L1 loss, whatever its value [l1], is computed and logged
    but is no part of it.  Here the spectral loss is 3, the step is the first
    of a warm-up and the bottleneck is not variational. *)
Theorem l1_time_loss_not_in_generator_loss (l1 : Q) :
  let T := toy ∅ None l1 in
  let loss := (3 + (1 # 10) * 0 + 10 * 0)%Q in
  let r := training_step T 0 (clip, tt) (toy_start ∅ None l1 "none" 150000) in
  fst r = Returned loss /\
  backpropagated (trace T (snd r)) = [loss] /\
  stepped (trace T (snd r)) = [mkAdam Autoencoder (1 # 10000)%Q (1 # 2, 9 # 10)%Q] /\
  exists log,
    logged (trace T (snd r)) = [log] /\
    log !! "train/l1_time_loss" = Some l1 /\
    log !! "train/loss" = Some loss.
Proof.
  cbv zeta.
  split; [by_vm|].
  split; [by_vm|].
  split; [by_vm|].
  exists (hd ∅ (logged (trace _ (snd (training_step (toy ∅ None l1) 0 (clip, tt)
                                      (toy_start ∅ None l1 "none" 150000)))))).
  split; [by_vm|].
  split; by_vm.
Qed.

(** [alternating_optimizer_steps] at step 7 of a run whose warm-up ended at
    step 4: the discriminator's optimizer steps, the autoencoder stays. *)
Lemma alternating_optimizer_steps_witness :
  let T := toy ∅ None 0 in
  let s0 := toy_start ∅ None 0 "none" 4 in
  let s1 := snd (training_step T 7 (clip, tt) s0) in
  warmup_steps T (self T s0) <= 7 /\
  training_step T 7 (clip, tt) s0 = (Returned 5%Q, s1) /\
  stepped (trace T s1) = [mkAdam Discriminator (1 # 10000)%Q (1 # 2, 9 # 10)%Q] /\
  weights T (autoencoder T (self T s1)) = weights T (autoencoder T (self T s0)).
Proof.
  cbv zeta.
  assert (H1 : warmup_steps (toy ∅ None 0) (self _ (toy_start ∅ None 0 "none" 4)) <= 7)
    by (vm_compute; discriminate).
  assert (H2 : training_step (toy ∅ None 0) 7 (clip, tt) (toy_start ∅ None 0 "none" 4)
               = (Returned 5%Q,
                  snd (training_step (toy ∅ None 0) 7 (clip, tt)
                         (toy_start ∅ None 0 "none" 4))))
    by by_vm.
  split; [exact H1|]. split; [exact H2|].
  destruct (alternating_optimizer_steps _ _ _ _ _ _ H1 H2)
    as (opt_gen & opt_disc & Hc & Hs & _ & Hw & _).
  injection Hc as <- <-. split; [exact Hs | exact Hw].
Defined.

(** [warmup_schedule] at the first step of a fresh wrapper. *)
Lemma warmup_schedule_witness :
  let T := toy ∅ None 0 in
  let s0 := toy_start ∅ None 0 "none" 150000 in
  let s1 := snd (training_step T 0 (clip, tt) s0) in
  training_step T 0 (clip, tt) s0 = (Returned (3 + (1 # 10) * 0 + 10 * 0)%Q, s1) /\
  discriminator_losses T (self T s0) clip clip = (0, 0, 0)%Q /\
  stepped (trace T s1) = [mkAdam Autoencoder (1 # 10000)%Q (1 # 2, 9 # 10)%Q] /\
  (warmed_up T (self T s1) = true <-> 150000 <= 0).
Proof.
  cbv zeta.
  assert (H2 : training_step (toy ∅ None 0) 0 (clip, tt) (toy_start ∅ None 0 "none" 150000)
               = (Returned (3 + (1 # 10) * 0 + 10 * 0)%Q,
                  snd (training_step (toy ∅ None 0) 0 (clip, tt)
                         (toy_start ∅ None 0 "none" 150000))))
    by by_vm.
  split; [exact H2|].
  destruct (warmup_schedule (toy ∅ None 0) 0 _ 0 _ _ _
              (trained_fresh (toy ∅ None 0) "none" 0 0 (1 # 10000)%Q 150000 0%nat 0%nat 0)
              (Z.le_refl 0) H2)
    as (Hcold & Hflag & _).
  destruct (Hcold ltac:(vm_compute; reflexivity))
    as (latents & info & decoded & log & He & Hd & Hz & _ & Hs & _).
  injection He as <- _. injection Hd as <-.
  split; [exact Hz|]. split; [exact Hs | exact Hflag].
Defined.

(** [kl_term_iff_vae] for a variational autoencoder whose encoder reports a
    KL value of 2. *)
Lemma kl_term_iff_vae_witness :
  let T := toy {[ "kl" := 2%Q ]} None 0 in
  let s0 := toy_start {[ "kl" := 2%Q ]} None 0 "vae" 150000 in
  let loss := (3 + (1 # 10) * 0 + 10 * 0 + (1 # 1000) * 2)%Q in
  let s1 := snd (training_step T 0 (clip, tt) s0) in
  trains_discriminator (self T s0) 0 = false /\
  training_step T 0 (clip, tt) s0 = (Returned loss, s1) /\
  exists log, logged (trace T s1) = [log] /\
    log !! "train/kl_loss" = Some ((1 # 1000) * 2)%Q.
Proof.
  cbv zeta.
  set (T := toy {[ "kl" := 2%Q ]} None 0).
  set (s0 := toy_start {[ "kl" := 2%Q ]} None 0 "vae" 150000).
  assert (H1 : trains_discriminator (self T s0) 0 = false) by by_vm.
  assert (H2 : training_step T 0 (clip, tt) s0
               = (Returned (3 + (1 # 10) * 0 + 10 * 0 + (1 # 1000) * 2)%Q,
                  snd (training_step T 0 (clip, tt) s0)))
    by by_vm.
  split; [exact H1|]. split; [exact H2|].
  destruct (kl_term_iff_vae T 0 clip tt s0 _ _ H1 H2)
    as (latents & info & decoded & ld & la & fm & log & He & _ & _ & Htr & Hvae & _).
  injection He as _ <-.
  destruct (Hvae eq_refl) as (kl & Hkl & _ & Hlog).
  injection Hkl as <-.
  exists log. split; [rewrite Htr; reflexivity | exact Hlog].
Defined.

(** [extra_dimension_removed] on a batch of shape [1; 2; 2; 3]. *)
Lemma extra_dimension_removed_witness :
  let T := toy ∅ None 0 in
  length (data wrapped_clip) = numel (shape wrapped_clip) /\
  encoded (trace T (snd (training_step T 0 (wrapped_clip, tt)
                           (toy_start ∅ None 0 "none" 150000))))
  = [clip].
Proof.
  cbv zeta.
  assert (H1 : length (data wrapped_clip) = numel (shape wrapped_clip)) by reflexivity.
  split; [exact H1|].
  destruct (extra_dimension_removed (toy ∅ None 0) 0 wrapped_clip tt
              (toy_start ∅ None 0 "none" 150000) H1)
    as (x & Henc & H4 & _).
  rewrite (H4 2 2 3 eq_refl)%nat in Henc. exact Henc.
Defined.

Section DemoFacts.

Context (T : Torch).

(** Unfolds the statements of the callback down to state-passing terms. *)
Ltac unfold_demo :=
  unfold render_demo, save, print_exception, print, effect, next_demo_dl, get_callback,
    set_last_demo_step, started, py_try_except_Exception, py_bind, py_ret, py_raise, py_lift,
    py_modify in *;
  simpl in *.

Lemma on_train_batch_end_other_rank rank gs w s :
  rank <> 0%nat -> on_train_batch_end T rank gs w s = (Returned tt, s).
Proof.
  intros Hr. unfold on_train_batch_end, rank_zero_only.
  destruct rank; [contradiction|reflexivity].
Qed.

Lemma on_train_batch_end_zero_period gs w s :
  demo_every T (callback T s) = 0 ->
  on_train_batch_end T 0 gs w s
  = (Raised (mkExc ZeroDivisionError "integer division or modulo by zero"), s).
Proof.
  intros Hz. unfold on_train_batch_end, rank_zero_only, py_mod. unfold_demo.
  rewrite Hz. reflexivity.
Qed.

Lemma on_train_batch_end_not_due gs w s :
  demo_every T (callback T s) <> 0 ->
  due (callback T s) gs = false ->
  on_train_batch_end T 0 gs w s = (Returned tt, s).
Proof.
  intros Hz Hdue. unfold on_train_batch_end, rank_zero_only, py_mod. unfold_demo.
  apply Z.eqb_neq in Hz. rewrite Hz. simpl.
  unfold due in Hdue.
  destruct ((gs - 1) mod demo_every T (callback T s) =? 0); simpl in *.
  - rewrite negb_false_iff in Hdue. rewrite Hdue. reflexivity.
  - reflexivity.
Qed.

Lemma on_train_batch_end_due gs w s :
  demo_every T (callback T s) <> 0 ->
  due (callback T s) gs = true ->
  on_train_batch_end T 0 gs w s
  = py_try_except_Exception (render_demo T gs w) (print_exception T) (started T s gs).
Proof.
  intros Hz Hdue. unfold on_train_batch_end, rank_zero_only, py_mod.
  unfold due in Hdue. apply andb_true_iff in Hdue as [Hm Hl].
  apply Z.eqb_neq in Hz.
  unfold get_callback, py_bind at 1 2, py_lift. simpl. rewrite Hz, Hm. simpl.
  apply negb_true_iff in Hl. rewrite Hl. reflexivity.
Qed.

(** What a demo that ran to its end did. *)
Lemma render_demo_inv gs w s s1 :
  render_demo T gs w s = (Returned tt, s1) ->
  exists demo_reals meta rest latents info decoded fakes reals,
    demo_dl T (callback T s) = (demo_reals, meta) :: rest /\
    encode T (weights T (autoencoder T w)) demo_reals = Returned (latents, info) /\
    decode T (weights T (autoencoder T w)) latents = Returned decoded /\
    rearrange_b_d_n decoded = Returned fakes /\
    rearrange_b_d_n demo_reals = Returned reals /\
    let c := callback T s in
    let filename := "recon_" +:+ format_08 gs +:+ ".wav" in
    let reals_filename := "reals_" +:+ format_08 gs +:+ ".wav" in
    let fakes16 := tmap (to_int16_sample T) fakes in
    let reals16 := tmap (to_int16_sample T) reals in
    torchaudio_save T filename fakes16 (sample_rate T c) = Returned tt /\
    torchaudio_save T reals_filename reals16 (sample_rate T c) = Returned tt /\
    s1 = mkDemo T
           (mkCallback T (demo_every T c) (demo_samples T c) rest (sample_rate T c)
              (last_demo_step T c))
           (effects T s ++
              [Saved filename fakes16 (sample_rate T c);
               Saved reals_filename reals16 (sample_rate T c);
               WandbLog
                 (<[ "recon_melspec_left" := Image (audio_spectrogram_image fakes16) ]>
                  (<[ "real_melspec_left" := Image (audio_spectrogram_image reals16) ]>
                  (<[ "embeddings_spec" := Image (tokens_spectrogram_image latents) ]>
                  (<[ "embeddings_3dpca" := pca_point_cloud latents ]>
                  (<[ "real" := Audio reals_filename (sample_rate T c) "Real" ]>
                  (<[ "recon" := Audio filename (sample_rate T c) "Reconstructed" ]> ∅))))))
                 gs]).
Proof.
  destruct s as [[de ds dl sr last] eff]. unfold_demo.
  destruct dl as [|[demo_reals meta] rest]; simpl; [discriminate|].
  destruct (encode T (weights T (autoencoder T w)) demo_reals) as [[latents info]|e] eqn:He;
    simpl; [|discriminate].
  destruct (decode T (weights T (autoencoder T w)) latents) as [decoded|e] eqn:Hd;
    simpl; [|discriminate].
  destruct (rearrange_b_d_n decoded) as [fakes|e] eqn:Hf; simpl; [|discriminate].
  destruct (rearrange_b_d_n demo_reals) as [reals|e] eqn:Hr; simpl; [|discriminate].
  destruct (torchaudio_save T _ (tmap (to_int16_sample T) fakes) sr) as [[]|e] eqn:Hs1;
    simpl; [|discriminate].
  destruct (torchaudio_save T _ (tmap (to_int16_sample T) reals) sr) as [[]|e] eqn:Hs2;
    simpl; [|discriminate].
  intros [= <-].
  exists demo_reals, meta, rest, latents, info, decoded, fakes, reals.
  rewrite <- !app_assoc. simpl. repeat split; assumption.
Qed.

Lemma render_demo_effects gs w s :
  let s1 := snd (render_demo T gs w s) in
  (exists added, effects T s1 = effects T s ++ added /\ Forall (@converted T) added) /\
  demo_every T (callback T s1) = demo_every T (callback T s) /\
  last_demo_step T (callback T s1) = last_demo_step T (callback T s).
Proof.
  destruct s as [[de ds dl sr last] eff]. unfold_demo.
  destruct dl as [|[demo_reals meta] rest]; simpl.
  { split; [exists []; rewrite app_nil_r; split; [reflexivity|constructor] | split; reflexivity]. }
  destruct (encode T (weights T (autoencoder T w)) demo_reals) as [[latents info]|e]; simpl.
  2:{ split; [exists []; rewrite app_nil_r; split; [reflexivity|constructor] | split; reflexivity]. }
  destruct (decode T (weights T (autoencoder T w)) latents) as [decoded|e]; simpl.
  2:{ split; [exists []; rewrite app_nil_r; split; [reflexivity|constructor] | split; reflexivity]. }
  destruct (rearrange_b_d_n decoded) as [fakes|e]; simpl.
  2:{ split; [exists []; rewrite app_nil_r; split; [reflexivity|constructor] | split; reflexivity]. }
  destruct (rearrange_b_d_n demo_reals) as [reals|e]; simpl.
  2:{ split; [exists []; rewrite app_nil_r; split; [reflexivity|constructor] | split; reflexivity]. }
  destruct (torchaudio_save T _ (tmap (to_int16_sample T) fakes) sr) as [[]|e]; simpl.
  2:{ split; [exists []; rewrite app_nil_r; split; [reflexivity|constructor] | split; reflexivity]. }
  destruct (torchaudio_save T _ (tmap (to_int16_sample T) reals) sr) as [[]|e]; simpl.
  - split; [|split; reflexivity]. eexists. rewrite <- !app_assoc. simpl.
    split; [reflexivity|].
    repeat constructor; simpl; eauto.
  - split; [|split; reflexivity]. eexists. split; [reflexivity|].
    repeat constructor; simpl; eauto.
Qed.

Lemma due_spec (c : Callback T) gs :
  demo_every T c <> 0 ->
  (due c gs = true <-> Z.divide (demo_every T c) (gs - 1) /\ last_demo_step T c <> gs).
Proof.
  intros Hz. unfold due.
  rewrite andb_true_iff, negb_true_iff, Z.eqb_eq, Z.eqb_neq.
  rewrite (Z.mod_divide _ _ Hz). reflexivity.
Qed.

(** Started or not, caught or not, a demo leaves the schedule's two
    attributes alone and only adds converted effects. *)
Lemma try_render_demo_effects gs w s :
  let s1 := snd (py_try_except_Exception (render_demo T gs w) (print_exception T) s) in
  (exists added, effects T s1 = effects T s ++ added /\ Forall (@converted T) added) /\
  demo_every T (callback T s1) = demo_every T (callback T s) /\
  last_demo_step T (callback T s1) = last_demo_step T (callback T s).
Proof.
  destruct (render_demo_effects gs w s) as ((added & Hadd & Hconv) & Hde & Hlast).
  cbv zeta in *. unfold py_try_except_Exception.
  destruct (render_demo T gs w s) as [[[]|e] s1]; simpl in *.
  - split; [exists added; split; assumption | split; assumption].
  - destruct (derives_Exception (exc_class e)); simpl.
    + split; [|split; assumption].
      exists (added ++ [Printed (class_name (exc_class e) +:+ ": " +:+ exc_msg e)]).
      rewrite Hadd, <- app_assoc. split; [reflexivity|].
      apply Forall_app. split; [assumption|]. repeat constructor.
    + split; [exists added; split; assumption | split; assumption].
Qed.

Lemma on_train_batch_end_effects rank gs w s :
  let s1 := snd (on_train_batch_end T rank gs w s) in
  exists added, effects T s1 = effects T s ++ added /\ Forall (@converted T) added.
Proof.
  cbv zeta.
  assert (Hsame : exists added, effects T s = effects T s ++ added /\ Forall (@converted T) added)
    by (exists []; rewrite app_nil_r; split; [reflexivity|constructor]).
  destruct rank as [|rank]; [|rewrite on_train_batch_end_other_rank by discriminate; exact Hsame].
  destruct (Z.eq_dec (demo_every T (callback T s)) 0) as [Hz|Hz].
  { rewrite on_train_batch_end_zero_period by assumption. exact Hsame. }
  destruct (due (callback T s) gs) eqn:Hdue.
  - rewrite on_train_batch_end_due by assumption.
    destruct (try_render_demo_effects gs w (started T s gs)) as (Hadd & _). exact Hadd.
  - rewrite on_train_batch_end_not_due by assumption. exact Hsame.
Qed.

(** A second call at the same global step finds nothing to do. *)
Lemma on_train_batch_end_again rank gs w w' s :
  demo_every T (callback T s) <> 0 ->
  let s1 := snd (on_train_batch_end T rank gs w s) in
  on_train_batch_end T rank gs w' s1 = (Returned tt, s1).
Proof.
  intros Hz. cbv zeta.
  destruct rank as [|rank]; [|rewrite !on_train_batch_end_other_rank by discriminate; reflexivity].
  destruct (due (callback T s) gs) eqn:Hdue.
  - rewrite (on_train_batch_end_due gs w s) by assumption.
    destruct (try_render_demo_effects gs w (started T s gs)) as (_ & Hde & Hlast).
    cbv zeta in *. simpl in Hde, Hlast.
    apply on_train_batch_end_not_due; [rewrite Hde; exact Hz|].
    unfold due. rewrite Hlast, Z.eqb_refl. apply andb_false_r.
  - rewrite (on_train_batch_end_not_due gs w s) by assumption. simpl.
    apply on_train_batch_end_not_due; assumption.
Qed.

(** Along the calls of a run the latest demo step is [last_demo_step], it is
    the largest so far, and no step is listed twice. *)
Lemma demo_calls_inv rank s demos g :
  demo_calls T rank s demos g ->
  0 <= g /\
  last_demo_step T (callback T s) = hd (-1) demos /\
  hd (-1) demos <= g /\
  (forall h, In h demos -> h <= hd (-1) demos) /\
  List.NoDup demos.
Proof.
  induction 1 as [|s demos g gs w s' Hcalls IH Hle Hcall].
  - simpl. split; [lia|]. split; [reflexivity|]. split; [lia|].
    split; [intros h []|constructor].
  - destruct IH as (Hg & Hlast & Hhd & Hmax & Hnd).
    destruct rank as [|rank]; simpl.
    + destruct (Z.eq_dec (demo_every T (callback T s)) 0) as [Hz|Hz].
      { rewrite on_train_batch_end_zero_period in Hcall by assumption. discriminate. }
      destruct (due (callback T s) gs) eqn:Hdue; simpl.
      * rewrite on_train_batch_end_due in Hcall by assumption.
        destruct (try_render_demo_effects gs w (started T s gs)) as (_ & _ & Hl).
        cbv zeta in Hl. rewrite Hcall in Hl. simpl in Hl.
        apply due_spec in Hdue as [_ Hne]; [|assumption].
        split; [lia|]. split; [exact Hl|]. split; [lia|]. split.
        -- intros h [<- | Hin]; [lia|]. specialize (Hmax h Hin). lia.
        -- constructor; [|exact Hnd].
           intros Hin. specialize (Hmax gs Hin). lia.
      * rewrite on_train_batch_end_not_due in Hcall by assumption.
        injection Hcall as <-.
        split; [lia|]. split; [exact Hlast|]. split; [lia|]. split; assumption.
    + rewrite on_train_batch_end_other_rank in Hcall by discriminate.
      injection Hcall as <-.
      split; [lia|]. split; [exact Hlast|]. split; [lia|]. split; assumption.
Qed.

(** C5, amended: with a non-zero [demo_every], [on_train_batch_end] starts a
    demo only on rank zero at a step where global_step - 1 is a multiple of
    [demo_every] and [last_demo_step] differs from the step; at every other
    step it returns with the callback and the outside world as they were; a
    further call at the same global step returns at once; and along a run
    whose global steps never decrease no demo starts twice at one step. *)
Theorem demo_schedule rank gs w s :
  demo_every T (callback T s) <> 0 ->
  let c := callback T s in
  let r := on_train_batch_end T rank gs w s in
  ((rank <> 0%nat \/ ~ Z.divide (demo_every T c) (gs - 1) \/ last_demo_step T c = gs) ->
   r = (Returned tt, s)) /\
  (rank = 0%nat -> Z.divide (demo_every T c) (gs - 1) -> last_demo_step T c <> gs ->
   r = py_try_except_Exception (render_demo T gs w) (print_exception T) (started T s gs)) /\
  (forall w', on_train_batch_end T rank gs w' (snd r) = (Returned tt, snd r)) /\
  (forall demos g,
     demo_calls T rank s demos g -> g <= gs ->
     List.NoDup demos /\ (last_demo_step T c <> gs -> ~ In gs demos)).
Proof.
  intros Hz. cbv zeta. split; [|split; [|split]].
  - intros Hskip.
    destruct rank as [|rank]; [|apply on_train_batch_end_other_rank; discriminate].
    apply on_train_batch_end_not_due; [assumption|].
    destruct (due (callback T s) gs) eqn:Hdue; [|reflexivity].
    apply due_spec in Hdue as [Hdiv Hlast]; [|assumption].
    destruct Hskip as [Hr | [Hnd | Hl]]; [congruence | contradiction | contradiction].
  - intros -> Hdiv Hlast. apply on_train_batch_end_due; [assumption|].
    apply due_spec; [assumption|]. split; assumption.
  - intros w'. apply on_train_batch_end_again. assumption.
  - intros demos g Hcalls Hle.
    destruct (demo_calls_inv _ _ _ _ Hcalls) as (_ & Hlast & Hhd & Hmax & Hnd).
    split; [exact Hnd|].
    intros Hne Hin. specialize (Hmax gs Hin). lia.
Qed.

(** C6: when the demo body runs to its end, the dictionary logged at the
    current global step holds the reconstructed audio and the real audio (the
    two files just saved), the 3-D PCA point cloud and the spectrogram image
    of the latents, and the mel-spectrogram images of the real and of the
    reconstructed audio. *)
Theorem demo_log_contents gs w s s1 :
  demo_every T (callback T s) <> 0 ->
  Z.divide (demo_every T (callback T s)) (gs - 1) ->
  last_demo_step T (callback T s) <> gs ->
  render_demo T gs w (started T s gs) = (Returned tt, s1) ->
  on_train_batch_end T 0 gs w s = (Returned tt, s1) /\
  exists demo_reals meta rest latents info decoded fakes reals d,
    demo_dl T (callback T s) = (demo_reals, meta) :: rest /\
    encode T (weights T (autoencoder T w)) demo_reals = Returned (latents, info) /\
    decode T (weights T (autoencoder T w)) latents = Returned decoded /\
    rearrange_b_d_n decoded = Returned fakes /\
    rearrange_b_d_n demo_reals = Returned reals /\
    let rate := sample_rate T (callback T s) in
    let filename := "recon_" +:+ format_08 gs +:+ ".wav" in
    let reals_filename := "reals_" +:+ format_08 gs +:+ ".wav" in
    let fakes16 := tmap (to_int16_sample T) fakes in
    let reals16 := tmap (to_int16_sample T) reals in
    effects T s1
    = effects T s ++
      [Saved filename fakes16 rate; Saved reals_filename reals16 rate; WandbLog d gs] /\
    d !! "recon" = Some (Audio filename rate "Reconstructed") /\
    d !! "real" = Some (Audio reals_filename rate "Real") /\
    d !! "embeddings_3dpca" = Some (pca_point_cloud latents) /\
    d !! "embeddings_spec" = Some (Image (tokens_spectrogram_image latents)) /\
    d !! "real_melspec_left" = Some (Image (audio_spectrogram_image reals16)) /\
    d !! "recon_melspec_left" = Some (Image (audio_spectrogram_image fakes16)).
Proof.
  intros Hz Hdiv Hlast Hrun. split.
  - rewrite on_train_batch_end_due; [|assumption|apply due_spec; [assumption|split; assumption]].
    unfold py_try_except_Exception. rewrite Hrun. reflexivity.
  - destruct (render_demo_inv _ _ _ _ Hrun)
      as (demo_reals & meta & rest & latents & info & decoded & fakes & reals
          & Hdl & He & Hd & Hf & Hr & H).
    cbv zeta in H. destruct H as (_ & _ & ->).
    exists demo_reals, meta, rest, latents, info, decoded, fakes, reals.
    eexists. split; [exact Hdl|]. split; [exact He|]. split; [exact Hd|].
    split; [exact Hf|]. split; [exact Hr|]. cbv zeta. simpl.
    split; [reflexivity|].
    repeat split.
Qed.

(** C8, amended: an exception raised in the demo body that derives from
    [Exception] is caught and only printed, and the call returns; one that
    does not ([KeyboardInterrupt], [SystemExit], [GeneratorExit]) leaves the
    callback as raised.  Either way [last_demo_step] was set before the body
    ran, so a further call at the same global step does not try again. *)
Theorem demo_exception_handling gs w s e s1 :
  demo_every T (callback T s) <> 0 ->
  Z.divide (demo_every T (callback T s)) (gs - 1) ->
  last_demo_step T (callback T s) <> gs ->
  render_demo T gs w (started T s gs) = (Raised e, s1) ->
  (derives_Exception (exc_class e) = true ->
   on_train_batch_end T 0 gs w s
   = (Returned tt,
      mkDemo T (callback T s1)
        (effects T s1 ++ [Printed (class_name (exc_class e) +:+ ": " +:+ exc_msg e)]))) /\
  (derives_Exception (exc_class e) = false ->
   on_train_batch_end T 0 gs w s = (Raised e, s1)) /\
  last_demo_step T (callback T s1) = gs /\
  (forall w',
     let s2 := snd (on_train_batch_end T 0 gs w s) in
     on_train_batch_end T 0 gs w' s2 = (Returned tt, s2)).
Proof.
  intros Hz Hdiv Hlast Hrun.
  assert (Hdue : due (callback T s) gs = true)
    by (apply due_spec; [assumption|split; assumption]).
  pose proof (on_train_batch_end_due gs w s Hz Hdue) as Hcall.
  unfold py_try_except_Exception in Hcall. rewrite Hrun in Hcall.
  split; [|split; [|split]].
  - intros Hex. rewrite Hex in Hcall. exact Hcall.
  - intros Hex. rewrite Hex in Hcall. exact Hcall.
  - destruct (render_demo_effects gs w (started T s gs)) as (_ & _ & Hl).
    cbv zeta in Hl. rewrite Hrun in Hl. exact Hl.
  - intros w'. apply on_train_batch_end_again. assumption.
Qed.

(** *** The int16 conversion *)

Lemma clamp_unit_range (x : Q) : (-1 <= clamp_unit x /\ clamp_unit x <= 1)%Q.
Proof.
  unfold clamp_unit. split.
  - apply Q.min_glb; [apply Q.le_max_r | discriminate].
  - apply Q.le_min_r.
Qed.

Lemma Qtrunc_range (q : Q) :
  (-32767 <= q /\ q <= 32767)%Q -> -32767 <= Qtrunc q <= 32767.
Proof.
  destruct q as [n d]. unfold Qle, Qtrunc. simpl. intros [Hlo Hhi].
  rewrite Z.mul_1_r in Hlo, Hhi. split.
  - rewrite <- (Z.quot_mul (-32767) (Z.pos d)) by discriminate.
    apply Z.quot_le_mono; lia.
  - rewrite <- (Z.quot_mul 32767 (Z.pos d)) by discriminate.
    apply Z.quot_le_mono; lia.
Qed.

Lemma wrap_int16_fits (z : Z) : -32768 <= z <= 32767 -> wrap_int16 z = z.
Proof.
  intros Hz. unfold wrap_int16. rewrite Z.mod_small by lia. lia.
Qed.

Section Rounding.

(** The float type rounds monotonically and represents 32767 and -32767, as
    float32 and float64 do. *)
Hypothesis round_monotone : forall x y : Q, (x <= y)%Q -> (round T x <= round T y)%Q.
Hypothesis round_32767 : (round T 32767 == 32767)%Q.
Hypothesis round_neg_32767 : (round T (-32767) == -32767)%Q.

Lemma scaled_sample_range (x : Q) :
  (-32767 <= scaled_sample T x /\ scaled_sample T x <= 32767)%Q.
Proof.
  destruct (clamp_unit_range x) as [Hlo Hhi]. unfold scaled_sample. split.
  - apply Qle_trans with (round T (-32767)).
    + apply Qle_lteq. right. apply Qeq_sym. exact round_neg_32767.
    + apply round_monotone.
      apply (Qmult_le_compat_r (-1) (clamp_unit x) 32767); [exact Hlo | discriminate].
  - apply Qle_trans with (round T 32767).
    + apply round_monotone.
      apply (Qmult_le_compat_r (clamp_unit x) 1 32767); [exact Hhi | discriminate].
    + apply Qle_lteq. right. exact round_32767.
Qed.

Lemma to_int16_sample_exact (x : Q) :
  to_int16_sample T x = Qtrunc (scaled_sample T x) /\
  -32767 <= to_int16_sample T x <= 32767.
Proof.
  pose proof (Qtrunc_range _ (scaled_sample_range x)) as Hr.
  unfold to_int16_sample. rewrite wrap_int16_fits by lia. split; [reflexivity | exact Hr].
Qed.

(** C9: every sample of a file the callback saves is a source sample clamped
    to [-1, 1], multiplied by 32767 and cast to int16; the value cast lies in
    [-32767, 32767], so the cast keeps it and the saved sample lies in that
    range. *)
Theorem saved_samples_fit_int16 rank gs w s filename samples rate :
  In (Saved filename samples rate) (effects T (snd (on_train_batch_end T rank gs w s))) ->
  In (Saved filename samples rate) (effects T s) \/
  exists src : Tensor Q,
    samples = tmap (to_int16_sample T) src /\
    Forall (fun x => to_int16_sample T x = Qtrunc (round T (clamp_unit x * 32767)) /\
                     -32767 <= to_int16_sample T x <= 32767) (data src) /\
    Forall (fun z => -32767 <= z <= 32767) (data samples).
Proof.
  intros Hin.
  destruct (on_train_batch_end_effects rank gs w s) as (added & Hadd & Hconv).
  cbv zeta in Hadd. rewrite Hadd in Hin.
  apply in_app_or in Hin as [Hold | Hnew]; [left; exact Hold | right].
  rewrite List.Forall_forall in Hconv. destruct (Hconv _ Hnew) as [src ->].
  exists src. split; [reflexivity|]. split.
  - apply List.Forall_forall. intros x _. apply to_int16_sample_exact.
  - simpl. apply List.Forall_forall. intros z Hz.
    apply in_map_iff in Hz as (x & <- & _). apply to_int16_sample_exact.
Qed.

End Rounding.

End DemoFacts.

(** ** The callback on concrete inputs *)

(** C5, as stated, fails for [demo_every = 0]: at global step 5 no demo is due
    (4 is no multiple of 0, and no demo was started at step 5), yet the call
    does not return: the modulo of line 150 raises ZeroDivisionError. *)
Lemma demo_schedule_zero_period :
  let T := toy ∅ None 0 in
  let s := toy_demo ∅ None 0 in
  ~ Z.divide (demo_every T (callback T s)) (5 - 1) /\
  last_demo_step T (callback T s) <> 5 /\
  on_train_batch_end T 0 5 (toy_module ∅ None) s
  = (Raised (mkExc ZeroDivisionError "integer division or modulo by zero"), s).
Proof.
  cbv zeta. split; [|split].
  - intros [z Hz]. simpl in Hz. lia.
  - discriminate.
  - by_vm.
Qed.

(** [demo_schedule] with a period of 2000: nothing
    happens at step 3, and a second call at step 1 finds the demo done. *)
Lemma demo_schedule_witness :
  let T := toy ∅ None 0 in
  let s := toy_demo ∅ None 2000 in
  let w := toy_module ∅ None in
  demo_every T (callback T s) <> 0 /\
  on_train_batch_end T 0 3 w s = (Returned tt, s) /\
  on_train_batch_end T 0 1 w (snd (on_train_batch_end T 0 1 w s))
  = (Returned tt, snd (on_train_batch_end T 0 1 w s)).
Proof.
  cbv zeta.
  assert (Hz : demo_every (toy ∅ None 0) (callback _ (toy_demo ∅ None 2000)) <> 0)
    by discriminate.
  split; [exact Hz|].
  destruct (demo_schedule (toy ∅ None 0) 0 3 (toy_module ∅ None) _ Hz) as (Hskip & _ & _ & _).
  destruct (demo_schedule (toy ∅ None 0) 0 1 (toy_module ∅ None) _ Hz) as (_ & _ & Hagain & _).
  split; [|exact (Hagain (toy_module ∅ None))].
  apply Hskip. right. left. intros [z Hdiv]. simpl in Hdiv. lia.
Defined.

(** [demo_log_contents] for the demo of step 1. *)
Lemma demo_log_contents_witness :
  let T := toy ∅ None 0 in
  let s := toy_demo ∅ None 2000 in
  let w := toy_module ∅ None in
  let s1 := snd (render_demo T 1 w (started T s 1)) in
  render_demo T 1 w (started T s 1) = (Returned tt, s1) /\
  on_train_batch_end T 0 1 w s = (Returned tt, s1).
Proof.
  cbv zeta.
  assert (Hrun : render_demo (toy ∅ None 0) 1 (toy_module ∅ None)
                   (started _ (toy_demo ∅ None 2000) 1)
                 = (Returned tt,
                    snd (render_demo (toy ∅ None 0) 1 (toy_module ∅ None)
                           (started _ (toy_demo ∅ None 2000) 1))))
    by by_vm.
  split; [exact Hrun|].
  apply (demo_log_contents (toy ∅ None 0) 1 (toy_module ∅ None) (toy_demo ∅ None 2000) _).
  - discriminate.
  - exists 0. reflexivity.
  - discriminate.
  - exact Hrun.
Defined.

(** C8, as stated, fails for an exception that does not derive from
    [Exception]: a KeyboardInterrupt raised while the demo encodes leaves
    [on_train_batch_end] as raised. *)
Lemma demo_keyboard_interrupt_propagates :
  let interrupt := mkExc KeyboardInterrupt "" in
  let T := toy ∅ (Some interrupt) 0 in
  let s := toy_demo ∅ (Some interrupt) 2000 in
  let w := toy_module ∅ (Some interrupt) in
  fst (render_demo T 1 w (started T s 1)) = Raised interrupt /\
  fst (on_train_batch_end T 0 1 w s) = Raised interrupt.
Proof.
  cbv zeta. split; by_vm.
Qed.

(** [demo_exception_handling] when the encoder runs out of memory. *)
Lemma demo_exception_handling_witness :
  let oom := mkExc RuntimeError "CUDA out of memory" in
  let T := toy ∅ (Some oom) 0 in
  let s := toy_demo ∅ (Some oom) 2000 in
  let w := toy_module ∅ (Some oom) in
  let s1 := snd (render_demo T 1 w (started T s 1)) in
  render_demo T 1 w (started T s 1) = (Raised oom, s1) /\
  on_train_batch_end T 0 1 w s
  = (Returned tt,
     mkDemo T (callback T s1) (effects T s1 ++ [Printed "RuntimeError: CUDA out of memory"])).
Proof.
  cbv zeta.
  set (oom := mkExc RuntimeError "CUDA out of memory").
  assert (Hrun : render_demo (toy ∅ (Some oom) 0) 1 (toy_module ∅ (Some oom))
                   (started _ (toy_demo ∅ (Some oom) 2000) 1)
                 = (Raised oom,
                    snd (render_demo (toy ∅ (Some oom) 0) 1 (toy_module ∅ (Some oom))
                           (started _ (toy_demo ∅ (Some oom) 2000) 1))))
    by by_vm.
  split; [exact Hrun|].
  refine (proj1 (demo_exception_handling (toy ∅ (Some oom) 0) 1 (toy_module ∅ (Some oom))
                   (toy_demo ∅ (Some oom) 2000) oom _ _ _ _ Hrun) eq_refl).
  - discriminate.
  - exists 0. reflexivity.
  - discriminate.
Defined.

(** [saved_samples_fit_int16] with exact arithmetic for the float type: the
    reconstruction saved at step 1. *)
Lemma saved_samples_fit_int16_witness :
  let T := toy ∅ None 0 in
  let s1 := snd (on_train_batch_end T 0 1 (toy_module ∅ None) (toy_demo ∅ None 2000)) in
  let recon := mkTensor [2; 6]%nat
                 [16383; -32767; 0; -10922; 32767; 28671; 8191; 32767; -32767; -32767; 0; 1] in
  nth_error (effects T s1) 0 = Some (Saved "recon_00000001.wav" recon 48000) /\
  Forall (fun z => -32767 <= z <= 32767) (data recon).
Proof.
  cbv zeta.
  assert (Hnth : nth_error
                   (effects (toy ∅ None 0)
                      (snd (on_train_batch_end (toy ∅ None 0) 0 1 (toy_module ∅ None)
                              (toy_demo ∅ None 2000)))) 0
                 = Some (Saved "recon_00000001.wav"
                           (mkTensor [2; 6]%nat
                              [16383; -32767; 0; -10922; 32767; 28671; 8191; 32767;
                               -32767; -32767; 0; 1]) 48000))
    by by_vm.
  split; [exact Hnth|].
  destruct (saved_samples_fit_int16 (toy ∅ None 0) (fun x y H => H) (Qeq_refl _) (Qeq_refl _)
              0 1 (toy_module ∅ None) (toy_demo ∅ None 2000) _ _ _
              (nth_error_In _ _ Hnth))
    as [[] | (src & _ & _ & Hrange)].
  exact Hrange.
Defined.

(** * Further properties of the training step *)

Section TrainingMore.

Context (T : Torch).

Local Abbreviation Scalar := (Scalar T).

Ltac unfold_step :=
  unfold training_step, discriminator_losses, train_discriminator, train_generator,
    zero_grad, manual_backward, step, log_dict, opt_state, optimizers,
    autoencoder_encode, autoencoder_decode, set_warmed_up, set_self, get_self, call,
    py_bind, py_ret, py_raise, py_lift, py_modify, py_get, py_getitem in *;
  simpl in *.


Lemma logged_app (tr1 tr2 : list (Call T)) :
  logged (tr1 ++ tr2) = logged tr1 ++ logged tr2.
Proof.
  induction tr1 as [|c tr1 IH]; simpl; [reflexivity|].
  destruct c; simpl; rewrite ?IH; reflexivity.
Qed.

(** What a step that raised did, and where the exception came from. *)
Lemma training_step_raised gs reals m s e s' :
  training_step T gs (reals, m) s = (Raised e, s') ->
  let w := self T s in
  let x := remove_extra_dimension reals in
  let flag := warmed_up T w || (warmup_steps T w <=? gs) in
  let w' := mkWrapper T (bottleneck T w) (autoencoder T w) (discriminator T w) flag
              (warmup_steps T w) (lr T w) in
  (encode T (weights T (autoencoder T w)) x = Raised e /\
   s' = mkTraining T w' (state_gen T s) (state_disc T s) (trace T s ++ [Encode T x])) \/
  (exists latents info,
     encode T (weights T (autoencoder T w)) x = Returned (latents, info) /\
     ((decode T (weights T (autoencoder T w)) latents = Raised e) \/
      (exists decoded,
         decode T (weights T (autoencoder T w)) latents = Returned decoded /\
         trains_discriminator w gs = false /\
         bottleneck T w = "vae" /\
         info !! "kl" = None /\
         e = mkExc KeyError "kl")) /\
     s' = mkTraining T w' (state_gen T s) (state_disc T s)
            (trace T s ++ [Encode T x; Decode T latents])).
Proof.
  destruct s as [w sg sd tr]; destruct w as [bn ae di wup wu rate].
  unfold trains_discriminator. unfold_step.
  set (x := remove_extra_dimension reals).
  destruct (wu <=? gs) eqn:Hwu, wup; simpl;
    (destruct (encode T (weights T ae) x) as [[latents info]|e0] eqn:He; simpl;
       [|intros [= <- <-]; left; split; reflexivity]);
    (destruct (decode T (weights T ae) latents) as [decoded|e0] eqn:Hd; simpl;
       [|intros [= <- <-]; right; exists latents, info; rewrite <- app_assoc;
         split; [reflexivity|]; split; [left; assumption || reflexivity|reflexivity]]);
    destruct (discriminator_loss T (weights T di) x decoded) as [[ld la] fm];
    simpl in *;
    destruct (negb (gs mod 2 =? 0)); simpl in *; try discriminate;
    (destruct (String.eqb bn "vae") eqn:Hv; simpl in *;
       [destruct (info !! "kl") as [kl|] eqn:Hkl; simpl in *|]);
    rewrite ?Hv; simpl; try discriminate;
    intros [= <- <-]; right; exists latents, info; rewrite <- app_assoc;
    (split; [reflexivity|]); (split; [|reflexivity]);
    right; exists decoded; apply String.eqb_eq in Hv; repeat split; assumption.
Qed.


(** X2: on a generator step of a "vae" autoencoder whose encoder reports no
    'kl', [training_step] raises KeyError('kl') before any optimizer call:
    nothing is backpropagated, stepped or logged and both networks are as
    they were. *)
Theorem missing_kl_raises_KeyError gs reals m s latents info decoded :
  let w := self T s in
  let x := remove_extra_dimension reals in
  encode T (weights T (autoencoder T w)) x = Returned (latents, info) ->
  decode T (weights T (autoencoder T w)) latents = Returned decoded ->
  trains_discriminator w gs = false ->
  bottleneck T w = "vae" ->
  info !! "kl" = None ->
  exists s',
    training_step T gs (reals, m) s = (Raised (mkExc KeyError "kl"), s') /\
    trace T s' = trace T s ++ [Encode T x; Decode T latents] /\
    autoencoder T (self T s') = autoencoder T w /\
    discriminator T (self T s') = discriminator T w /\
    state_gen T s' = state_gen T s /\
    state_disc T s' = state_disc T s.
Proof.
  cbv zeta. intros He Hd Hgen Hvae Hkl.
  destruct (training_step T gs (reals, m) s) as [[loss|e] s'] eqn:Hrun.
  - exfalso.
    destruct (training_step_inv T _ _ _ _ _ _ Hrun)
      as (latents' & info' & decoded' & He' & _ & H).
    rewrite He in He'. injection He' as <- <-.
    unfold trains_discriminator in Hgen. cbv zeta in H. rewrite Hgen in H.
    destruct H as (log & Hlog & _).
    apply String.eqb_eq in Hvae. rewrite Hvae in Hlog.
    destruct Hlog as (kl & Hkl' & _). congruence.
  - exists s'.
    destruct (training_step_raised _ _ _ _ _ _ Hrun)
      as [[He' _] | (latents' & info' & He' & Hwhy & ->)]; [congruence|].
    rewrite He in He'. injection He' as <- <-.
    destruct Hwhy as [Hd' | (decoded' & _ & _ & _ & _ & ->)]; [congruence|].
    repeat split.
Qed.


(** X4: a completed step makes its calls in one order: encode, decode, then
    zero_grad, manual_backward and step of the one optimizer the step selects,
    then log_dict; the loss it returns is the loss it backpropagated. *)
Theorem completed_step_calls gs reals m s loss s' :
  training_step T gs (reals, m) s = (Returned loss, s') ->
  let w := self T s in
  let o := mkAdam (selected w gs) (lr T w) (1 # 2, 9 # 10)%Q in
  exists latents d,
    trace T s'
    = trace T s ++
      [Encode T (remove_extra_dimension reals); Decode T latents; ZeroGrad T o;
       ManualBackward T loss; Step T o; LogDict T d] /\
    In o (configure_optimizers T w).
Proof.
  intros Hrun. cbv zeta. unfold selected, trains_discriminator.
  destruct (training_step_inv T _ _ _ _ _ _ Hrun)
    as (latents & info & decoded & _ & _ & H).
  cbv zeta in H. exists latents.
  destruct (negb (gs mod 2 =? 0) && _).
  - destruct H as [-> ->]. eexists. split; [reflexivity|]. simpl. tauto.
  - destruct H as (log & _ & ->). exists log. split; [reflexivity|]. simpl. tauto.
Qed.

Lemma selected_net_of (w : Wrapper T) gs :
  selected w gs = (if trains_discriminator w gs then Discriminator else Autoencoder).
Proof. reflexivity. Qed.

(** X5: the gradients the network to be trained carried into the step have no
    influence: [zero_grad] clears them before [manual_backward], so the step
    returns the same loss and ends in the same state whatever they were. *)
Theorem stale_gradients_cleared gs reals m s loss s' g :
  training_step T gs (reals, m) s = (Returned loss, s') ->
  training_step T gs (reals, m) (with_grads (selected (self T s) gs) g s)
  = (Returned loss, s').
Proof.
  intros Hrun.
  destruct (training_step_inv T _ _ _ _ _ _ Hrun)
    as (latents & info & decoded & He & Hd & H).
  cbv zeta in H.
  assert (Hsame : forall mdl,
             let s2 := with_grads mdl g s in
             weights T (autoencoder T (self T s2)) = weights T (autoencoder T (self T s)) /\
             weights T (discriminator T (self T s2)) = weights T (discriminator T (self T s)) /\
             bottleneck T (self T s2) = bottleneck T (self T s) /\
             warmed_up T (self T s2) = warmed_up T (self T s) /\
             warmup_steps T (self T s2) = warmup_steps T (self T s) /\
             lr T (self T s2) = lr T (self T s) /\
             state_gen T s2 = state_gen T s /\ state_disc T s2 = state_disc T s /\
             trace T s2 = trace T s)
    by (intros []; repeat split).
  set (s2 := with_grads (selected (self T s) gs) g s) in *.
  destruct (Hsame (selected (self T s) gs))
    as (Hwa & Hwd & Hbn & Hwup & Hwu & Hlr & Hsg & Hsd & Htr).
  fold s2 in Hwa, Hwd, Hbn, Hwup, Hwu, Hlr, Hsg, Hsd, Htr.
  assert (Hgen : trains_discriminator (self T s2) gs = trains_discriminator (self T s) gs)
    by (unfold trains_discriminator; rewrite Hwup, Hwu; reflexivity).
  destruct (training_step_returns T gs reals m s2 latents info decoded) as (loss2 & s2' & Hrun2).
  { rewrite Hwa. exact He. }
  { rewrite Hwa. exact Hd. }
  { rewrite Hgen, Hbn. unfold trains_discriminator. intros Hg Hv.
    rewrite Hg in H. destruct H as (log & Hlog & _).
    apply String.eqb_eq in Hv. rewrite Hv in Hlog.
    destruct Hlog as (kl & Hkl & _). exists kl. exact Hkl. }
  rewrite Hrun2.
  destruct (training_step_inv T _ _ _ _ _ _ Hrun2)
    as (latents2 & info2 & decoded2 & He2 & Hd2 & H2).
  cbv zeta in H2.
  rewrite Hwa, Hwd, Hbn, Hwup, Hwu, Hlr, Hsg, Hsd, Htr in *.
  rewrite He in He2. injection He2 as <- <-.
  rewrite Hd in Hd2. injection Hd2 as <-.
  unfold selected, trains_discriminator in s2.
  destruct (negb (gs mod 2 =? 0) &&
            (warmed_up T (self T s) || (warmup_steps T (self T s) <=? gs))) eqn:Hbranch.
  - destruct H as [-> ->]. destruct H2 as [-> ->].
    subst s2. destruct s as [[bn ae di wup wu rate] sg sd tr]. reflexivity.
  - destruct H as (log & Hlog & ->). destruct H2 as (log2 & Hlog2 & ->).
    assert (loss2 = loss /\ log2 = log) as [-> ->].
    { destruct (String.eqb (bottleneck T (self T s)) "vae").
      - destruct Hlog as (kl & Hkl & -> & ->). destruct Hlog2 as (kl2 & Hkl2 & -> & ->).
        rewrite Hkl in Hkl2. injection Hkl2 as <-. split; reflexivity.
      - destruct Hlog as [-> ->]. destruct Hlog2 as [-> ->]. split; reflexivity. }
    subst s2. destruct s as [[bn ae di wup wu rate] sg sd tr]. reflexivity.
Qed.

(** X6: what a completed step logs: a discriminator step logs the single key
    'train/discriminator_loss'; a generator step logs 'train/loss',
    'train/mrstft_loss', 'train/l1_time_loss', 'train/loss_adv',
    'train/feature_matching' and 'train/latent_std', with 'train/kl_loss'
    beside them for a "vae" bottleneck, and never the discriminator's key. *)
Theorem logged_keys gs reals m s loss s' :
  training_step T gs (reals, m) s = (Returned loss, s') ->
  exists d : gmap string Scalar,
    logged (trace T s') = logged (trace T s) ++ [d] /\
    dom d
    = (if trains_discriminator (self T s) gs
       then {[ "train/discriminator_loss" ]}
       else {[ "train/loss"; "train/mrstft_loss"; "train/l1_time_loss"; "train/loss_adv";
               "train/feature_matching"; "train/latent_std" ]}
            ∪ (if String.eqb (bottleneck T (self T s)) "vae"
               then {[ "train/kl_loss" ]} else ∅) : gset string).
Proof.
  intros Hrun. unfold trains_discriminator.
  destruct (training_step_inv T _ _ _ _ _ _ Hrun)
    as (latents & info & decoded & _ & _ & H).
  cbv zeta in H.
  destruct (negb (gs mod 2 =? 0) && _).
  - destruct H as [_ ->]. eexists. simpl. rewrite logged_app. simpl.
    split; [reflexivity|]. apply dom_singleton_L.
  - destruct H as (log & Hlog & ->). exists log. simpl. rewrite logged_app. simpl.
    split; [reflexivity|].
    destruct (String.eqb (bottleneck T (self T s)) "vae").
    + destruct Hlog as (kl & _ & _ & ->).
      rewrite !dom_insert_L, dom_singleton_L. set_solver.
    + destruct Hlog as [_ ->].
      rewrite !dom_insert_L, dom_singleton_L. set_solver.
Qed.

(** One completed step below the threshold, on a wrapper not yet warmed
    up. *)
Lemma warmup_step_inv gs batch s loss s' :
  warmed_up T (self T s) = false ->
  gs < warmup_steps T (self T s) ->
  training_step T gs batch s = (Returned loss, s') ->
  warmed_up T (self T s') = false /\
  warmup_steps T (self T s') = warmup_steps T (self T s) /\
  lr T (self T s') = lr T (self T s) /\
  weights T (discriminator T (self T s')) = weights T (discriminator T (self T s)) /\
  state_disc T s' = state_disc T s /\
  stepped (trace T s')
  = stepped (trace T s) ++ [mkAdam Autoencoder (lr T (self T s)) (1 # 2, 9 # 10)%Q].
Proof.
  intros Hcold Hlt Hrun. destruct batch as [reals m].
  destruct (training_step_inv T _ _ _ _ _ _ Hrun)
    as (latents & info & decoded & _ & _ & H).
  cbv zeta in H.
  assert (Hnot : (warmup_steps T (self T s) <=? gs) = false) by (apply Z.leb_gt; lia).
  rewrite Hcold, Hnot in H. simpl in H. rewrite andb_false_r in H.
  destruct H as (log & _ & ->). simpl. rewrite stepped_app. simpl.
  repeat split.
Qed.

(** X7: throughout a warm-up, that is along completed steps at global steps
    below [warmup_steps] from a wrapper not yet warmed up, every step trains
    the generator: the flag stays False, the discriminator's weights and its
    optimizer's state stay as they were, and the generator's optimizer has
    stepped once per training step. *)
Theorem warmup_trains_generator_only s n s' :
  warmed_up T (self T s) = false ->
  warmup_run T s n s' ->
  warmed_up T (self T s') = false /\
  weights T (discriminator T (self T s')) = weights T (discriminator T (self T s)) /\
  state_disc T s' = state_disc T s /\
  stepped (trace T s')
  = stepped (trace T s) ++ repeat (mkAdam Autoencoder (lr T (self T s)) (1 # 2, 9 # 10)%Q) n.
Proof.
  intros Hcold Hrun.
  induction Hrun as [s | s g batch loss s' n s'' Hlt Hstep _ IH].
  - simpl. rewrite app_nil_r. repeat split. exact Hcold.
  - destruct (warmup_step_inv _ _ _ _ _ Hcold Hlt Hstep)
      as (Hcold' & Hwu & Hlr & Hw & Hsd & Htr).
    destruct (IH Hcold') as (Hc & Hw2 & Hsd2 & Htr2).
    split; [exact Hc|]. split; [congruence|]. split; [congruence|].
    rewrite Htr2, Htr, Hlr, <- app_assoc. reflexivity.
Qed.

(** X8: after the warm-up any two consecutive steps train both networks, each
    once: the discriminator then the generator when the first global step is
    odd, the generator then the discriminator when it is even. *)
Theorem consecutive_steps_train_both gs batch1 batch2 s loss1 s1 loss2 s2 :
  warmup_steps T (self T s) <= gs ->
  training_step T gs batch1 s = (Returned loss1, s1) ->
  training_step T (gs + 1) batch2 s1 = (Returned loss2, s2) ->
  let opt_gen := mkAdam Autoencoder (lr T (self T s)) (1 # 2, 9 # 10)%Q in
  let opt_disc := mkAdam Discriminator (lr T (self T s)) (1 # 2, 9 # 10)%Q in
  stepped (trace T s2)
  = stepped (trace T s) ++ (if Z.odd gs then [opt_disc; opt_gen] else [opt_gen; opt_disc]).
Proof.
  intros Hwu Hrun1 Hrun2. cbv zeta.
  destruct batch1 as [reals1 m1], batch2 as [reals2 m2].
  destruct (training_step_inv T _ _ _ _ _ _ Hrun1) as (l1 & i1 & d1 & _ & _ & H1).
  destruct (training_step_inv T _ _ _ _ _ _ Hrun2) as (l2 & i2 & d2 & _ & _ & H2).
  cbv zeta in H1, H2.
  assert (Hle : (warmup_steps T (self T s) <=? gs) = true) by (apply Z.leb_le; lia).
  rewrite Hle, orb_true_r, andb_true_r, odd_mod2 in H1.
  assert (Hodd : Z.odd (gs + 1) = negb (Z.odd gs))
    by (rewrite Z.add_1_r, Z.odd_succ, <- Z.negb_odd; reflexivity).
  rewrite odd_mod2, Hodd in H2.
  destruct (Z.odd gs); simpl in H2.
  - destruct H1 as [_ ->]. simpl in H2.
    destruct H2 as (log & _ & ->). simpl.
    rewrite !stepped_app, <- app_assoc. reflexivity.
  - destruct H1 as (log & _ & ->). simpl in H2.
    destruct H2 as [_ ->]. simpl.
    rewrite !stepped_app, <- app_assoc. reflexivity.
Qed.

(** X9: training never rebinds what the wrapper was configured with: along
    any completed steps the bottleneck, the learning rate and the warm-up
    threshold stay, so [configure_optimizers] keeps describing the same two
    optimizers. *)
Theorem configuration_never_changes s s' :
  later T s s' ->
  bottleneck T (self T s') = bottleneck T (self T s) /\
  lr T (self T s') = lr T (self T s) /\
  warmup_steps T (self T s') = warmup_steps T (self T s) /\
  configure_optimizers T (self T s') = configure_optimizers T (self T s).
Proof.
  induction 1 as [s | s g batch loss s' s'' Hrun _ IH].
  - repeat split.
  - destruct batch as [reals m].
    destruct (training_step_inv T _ _ _ _ _ _ Hrun) as (l & i & d & _ & _ & H).
    cbv zeta in H.
    assert (Hstep : bottleneck T (self T s') = bottleneck T (self T s) /\
                    lr T (self T s') = lr T (self T s) /\
                    warmup_steps T (self T s') = warmup_steps T (self T s)).
    { destruct (negb (g mod 2 =? 0) && _).
      - destruct H as [_ ->]. repeat split.
      - destruct H as (log & _ & ->). repeat split. }
    destruct Hstep as (Hb & Hl & Hw). destruct IH as (Hb' & Hl' & Hw' & Hc').
    split; [congruence|]. split; [congruence|]. split; [congruence|].
    rewrite Hc'. unfold configure_optimizers. rewrite Hl. reflexivity.
Qed.

End TrainingMore.

(** X10: removing the extra dimension is idempotent: what lines 60-62 return
    is never stripped again, since a stripped tensor has three dimensions. *)
Theorem remove_extra_dimension_idempotent (reals : Tensor Q) :
  remove_extra_dimension (remove_extra_dimension reals) = remove_extra_dimension reals.
Proof.
  unfold remove_extra_dimension, ndim.
  destruct (shape reals) as [|d0 [|d1 [|d2 [|d3 [|d4 rest]]]]] eqn:Hsh;
    simpl; rewrite ?Hsh; simpl; try reflexivity.
  destruct (d0 =? 1)%nat eqn:Hd; simpl.
  - unfold index0. rewrite Hsh. simpl. reflexivity.
  - rewrite Hsh. simpl. rewrite Hd. reflexivity.
Qed.


(** * Further properties of the demo callback *)

Section DemoMore.

Context (T : Torch).

Ltac unfold_callback :=
  unfold render_demo, save, print_exception, print, effect, next_demo_dl, get_callback,
    set_last_demo_step, started, py_try_except_Exception, py_bind, py_ret, py_raise, py_lift,
    py_modify in *;
  simpl in *.

(** The three ways the body of the [try] can end: nothing written, the
    reconstruction written alone, or both files written and the dictionary
    logged.  Only the last one returns.  In each of them the loader has lost
    the batch it had to give and the other attributes are as they were. *)
Lemma render_demo_outcomes gs w s :
  let c := callback T s in
  let r := render_demo T gs w s in
  let rate := sample_rate T c in
  let filename := "recon_" +:+ format_08 gs +:+ ".wav" in
  let reals_filename := "reals_" +:+ format_08 gs +:+ ".wav" in
  callback T (snd r)
  = mkCallback T (demo_every T c) (demo_samples T c) (tail (demo_dl T c)) (sample_rate T c)
      (last_demo_step T c) /\
  exists added,
    effects T (snd r) = effects T s ++ added /\
    ((added = [] /\ exists e, fst r = Raised e) \/
     (exists t, added = [Saved filename t rate] /\ exists e, fst r = Raised e) \/
     (exists t1 t2 d,
        added = [Saved filename t1 rate; Saved reals_filename t2 rate; WandbLog d gs] /\
        fst r = Returned tt)).
Proof.
  destruct s as [[de ds dl sr last] eff]. unfold_callback.
  destruct dl as [|[demo_reals meta] rest]; simpl.
  { split; [reflexivity|]. exists []. rewrite app_nil_r. split; [reflexivity|]. left. eauto. }
  destruct (encode T (weights T (autoencoder T w)) demo_reals) as [[latents info]|e]; simpl.
  2:{ split; [reflexivity|]. exists []. rewrite app_nil_r. split; [reflexivity|]. left. eauto. }
  destruct (decode T (weights T (autoencoder T w)) latents) as [decoded|e]; simpl.
  2:{ split; [reflexivity|]. exists []. rewrite app_nil_r. split; [reflexivity|]. left. eauto. }
  destruct (rearrange_b_d_n decoded) as [fakes|e]; simpl.
  2:{ split; [reflexivity|]. exists []. rewrite app_nil_r. split; [reflexivity|]. left. eauto. }
  destruct (rearrange_b_d_n demo_reals) as [reals|e]; simpl.
  2:{ split; [reflexivity|]. exists []. rewrite app_nil_r. split; [reflexivity|]. left. eauto. }
  destruct (torchaudio_save T _ (tmap (to_int16_sample T) fakes) sr) as [[]|e]; simpl.
  2:{ split; [reflexivity|]. exists []. rewrite app_nil_r. split; [reflexivity|]. left. eauto. }
  destruct (torchaudio_save T _ (tmap (to_int16_sample T) reals) sr) as [[]|e]; simpl.
  - split; [reflexivity|]. eexists. rewrite <- !app_assoc. simpl. split; [reflexivity|].
    right. right. eauto.
  - split; [reflexivity|]. eexists. split; [reflexivity|]. right. left. eauto.
Qed.

(** The same for the whole [try] statement: the handler adds one printed
    line and touches no attribute. *)
Lemma try_render_demo_outcomes gs w s :
  let c := callback T s in
  let r := py_try_except_Exception (render_demo T gs w) (print_exception T) s in
  let rate := sample_rate T c in
  let filename := "recon_" +:+ format_08 gs +:+ ".wav" in
  let reals_filename := "reals_" +:+ format_08 gs +:+ ".wav" in
  callback T (snd r)
  = mkCallback T (demo_every T c) (demo_samples T c) (tail (demo_dl T c)) (sample_rate T c)
      (last_demo_step T c) /\
  exists added,
    effects T (snd r) = effects T s ++ added /\
    (added = [] \/
     (exists line, added = [Printed line]) \/
     (exists t, added = [Saved filename t rate]) \/
     (exists t line, added = [Saved filename t rate; Printed line]) \/
     (exists t1 t2 d,
        added = [Saved filename t1 rate; Saved reals_filename t2 rate; WandbLog d gs] /\
        fst r = Returned tt)).
Proof.
  destruct (render_demo_outcomes gs w s) as (Hcb & added & Hadd & Hshape).
  cbv zeta in *. unfold py_try_except_Exception.
  destruct (render_demo T gs w s) as [[[]|e] s1]; simpl in *.
  - split; [exact Hcb|]. exists added. split; [exact Hadd|].
    destruct Hshape as [[_ [e He]] | [(t & _ & e & He) | (t1 & t2 & d & -> & _)]];
      [discriminate | discriminate |].
    do 4 right. eauto.
  - destruct (derives_Exception (exc_class e)); unfold print_exception, print, effect, py_modify;
      simpl.
    + split; [exact Hcb|].
      exists (added ++ [Printed (class_name (exc_class e) +:+ ": " +:+ exc_msg e)]).
      rewrite Hadd, <- app_assoc. split; [reflexivity|].
      destruct Hshape as [[-> _] | [(t & -> & _) | (t1 & t2 & d & _ & He)]];
        [| | discriminate]; simpl.
      * right. left. eauto.
      * do 3 right. left. eauto.
    + split; [exact Hcb|]. exists added. split; [exact Hadd|].
      destruct Hshape as [[-> _] | [(t & -> & _) | (t1 & t2 & d & _ & He)]];
        [| | discriminate].
      * left. reflexivity.
      * right. right. left. eauto.
Qed.


(** X13: with a non-zero [demo_every], a call takes one batch from the demo
    loader exactly when it starts a demo (rank zero, at a due step), also
    when the demo fails afterwards, and none otherwise; an exhausted loader
    stays exhausted.  [demo_every], [demo_samples] and [sample_rate] are
    never changed, and [last_demo_step] becomes the current step exactly
    when a demo starts. *)
Theorem demo_takes_one_batch rank gs w s :
  demo_every T (callback T s) <> 0 ->
  let c := callback T s in
  let c' := callback T (snd (on_train_batch_end T rank gs w s)) in
  let starts := (rank =? 0)%nat && due c gs in
  demo_dl T c' = (if starts then tail (demo_dl T c) else demo_dl T c) /\
  last_demo_step T c' = (if starts then gs else last_demo_step T c) /\
  demo_every T c' = demo_every T c /\
  demo_samples T c' = demo_samples T c /\
  sample_rate T c' = sample_rate T c.
Proof.
  intros Hz. cbv zeta.
  destruct rank as [|rank]; cbn [Nat.eqb andb];
    [|rewrite on_train_batch_end_other_rank by discriminate; repeat split].
  destruct (due (callback T s) gs) eqn:Hdue.
  - rewrite on_train_batch_end_due by assumption.
    destruct (try_render_demo_outcomes gs w (started T s gs)) as (Hcb & _).
    cbv zeta in Hcb. rewrite Hcb. simpl. repeat split.
  - rewrite on_train_batch_end_not_due by assumption. repeat split.
Qed.

(** X14: once the demo loader is exhausted, a due step on rank zero still
    records the step in [last_demo_step], then [next] raises StopIteration,
    which is caught: the call returns having printed the line
    "StopIteration: " and nothing else, no file is written, nothing is
    logged, and the loader stays exhausted. *)
Theorem exhausted_loader_prints_StopIteration gs w s :
  demo_every T (callback T s) <> 0 ->
  Z.divide (demo_every T (callback T s)) (gs - 1) ->
  last_demo_step T (callback T s) <> gs ->
  demo_dl T (callback T s) = [] ->
  let c := callback T s in
  on_train_batch_end T 0 gs w s
  = (Returned tt,
     mkDemo T (mkCallback T (demo_every T c) (demo_samples T c) [] (sample_rate T c) gs)
       (effects T s ++ [Printed "StopIteration: "])).
Proof.
  intros Hz Hdiv Hlast Hdl. cbv zeta.
  rewrite on_train_batch_end_due; [|assumption|apply due_spec; [assumption|split; assumption]].
  destruct s as [[de ds dl sr last] eff]. simpl in Hdl. subst dl.
  reflexivity.
Qed.

(** X15: a loader that has one batch left serves one demo.  After the call
    that started it, however that demo ended, the next due step on rank zero
    finds the loader exhausted: it only prints "StopIteration: ", and the
    callback never builds a new iterator. *)
Theorem one_batch_serves_one_demo gs gs' w w' s b :
  demo_every T (callback T s) <> 0 ->
  demo_dl T (callback T s) = [b] ->
  due (callback T s) gs = true ->
  Z.divide (demo_every T (callback T s)) (gs' - 1) ->
  gs' <> gs ->
  let s1 := snd (on_train_batch_end T 0 gs w s) in
  let c := callback T s in
  on_train_batch_end T 0 gs' w' s1
  = (Returned tt,
     mkDemo T (mkCallback T (demo_every T c) (demo_samples T c) [] (sample_rate T c) gs')
       (effects T s1 ++ [Printed "StopIteration: "])).
Proof.
  intros Hz Hdl Hdue Hdiv Hne. cbv zeta.
  rewrite (on_train_batch_end_due T gs w s) by assumption.
  destruct (try_render_demo_outcomes gs w (started T s gs)) as (Hcb & _).
  cbv zeta in Hcb. simpl in Hcb. rewrite Hdl in Hcb. simpl in Hcb.
  set (s1 := snd (py_try_except_Exception (render_demo T gs w) (print_exception T)
                    (started T s gs))) in *.
  rewrite on_train_batch_end_due.
  - destruct s1 as [c1 eff1]. simpl in Hcb. subst c1. reflexivity.
  - rewrite Hcb. exact Hz.
  - apply due_spec; rewrite Hcb; simpl; [exact Hz|]. split; [exact Hdiv | congruence].
Qed.

(** X16: a new callback with any non-zero [demo_every] starts its first demo
    at global step 1, that is right after the first training step: its
    [last_demo_step] is -1 and 0 is a multiple of every period.  At global
    step 0 it starts one only if [demo_every] is 1 or -1. *)
Theorem first_demo_at_step_one dl every size rate w :
  every <> 0 ->
  let s := mkDemo T (new_callback T dl every size rate) [] in
  on_train_batch_end T 0 1 w s
  = py_try_except_Exception (render_demo T 1 w) (print_exception T) (started T s 1) /\
  (every <> 1 -> every <> -1 -> on_train_batch_end T 0 0 w s = (Returned tt, s)).
Proof.
  intros Hz. cbv zeta. split.
  - apply on_train_batch_end_due; [exact Hz|].
    apply due_spec; [exact Hz|]. simpl. split; [apply Z.divide_0_r | discriminate].
  - intros H1 Hm1. apply on_train_batch_end_not_due; [exact Hz|].
    destruct (due _ 0) eqn:Hdue; [|reflexivity].
    apply due_spec in Hdue as [Hdiv _]; [|exact Hz]. simpl in Hdiv.
    apply (proj1 (Z.divide_opp_r every 1)), Z.divide_1_r in Hdiv. lia.
Qed.

End DemoMore.

(** * Further properties of the conversions *)

(** ** The int16 conversion of lines 176 and 180 *)

Lemma Qtrunc_monotone (p q : Q) : (p <= q)%Q -> Qtrunc p <= Qtrunc q.
Proof.
  destruct p as [n1 d1], q as [n2 d2]. unfold Qle, Qtrunc. simpl. intros H.
  rewrite <- (Z.quot_mul_cancel_r n1 (Z.pos d1) (Z.pos d2)) by discriminate.
  rewrite <- (Z.quot_mul_cancel_r n2 (Z.pos d2) (Z.pos d1)) by discriminate.
  rewrite (Z.mul_comm (Z.pos d2) (Z.pos d1)).
  apply Z.quot_le_mono; lia.
Qed.

Lemma clamp_unit_monotone (x y : Q) : (x <= y)%Q -> (clamp_unit x <= clamp_unit y)%Q.
Proof.
  intros H. unfold clamp_unit. apply Q.min_le_compat_r, Q.max_le_compat_r. exact H.
Qed.

Section Int16More.

Context (T : Torch).

(** The float type rounds monotonically and represents 32767 and -32767, as
    float32 and float64 do. *)
Hypothesis round_monotone : forall x y : Q, (x <= y)%Q -> (round T x <= round T y)%Q.
Hypothesis round_32767 : (round T 32767 == 32767)%Q.
Hypothesis round_neg_32767 : (round T (-32767) == -32767)%Q.

(** X17: the conversion keeps the order of the samples: a louder sample is
    never saved as a smaller integer, so clipping and rounding never fold the
    waveform over. *)
Theorem int16_conversion_monotone (x y : Q) :
  (x <= y)%Q -> to_int16_sample T x <= to_int16_sample T y.
Proof.
  intros H.
  destruct (to_int16_sample_exact T round_monotone round_32767 round_neg_32767 x) as [-> _].
  destruct (to_int16_sample_exact T round_monotone round_32767 round_neg_32767 y) as [-> _].
  apply Qtrunc_monotone. unfold scaled_sample. apply round_monotone.
  apply Qmult_le_compat_r; [|discriminate]. apply clamp_unit_monotone. exact H.
Qed.

(** X18: the conversion saturates: every sample at or above 1 is saved as
    32767 and every sample at or below -1 as -32767. *)
Theorem int16_conversion_saturates (x : Q) :
  ((1 <= x)%Q -> to_int16_sample T x = 32767) /\
  ((x <= -1)%Q -> to_int16_sample T x = -32767).
Proof.
  destruct (to_int16_sample_exact T round_monotone round_32767 round_neg_32767 x)
    as [Heq [Hlo Hhi]].
  split; intros H.
  - assert (Hge : 32767 <= to_int16_sample T x); [|lia].
    rewrite Heq. change 32767 with (Qtrunc 32767) at 1.
    apply Qtrunc_monotone. unfold scaled_sample.
    apply Qle_trans with (round T 32767).
    + apply Qle_lteq. right. apply Qeq_sym. exact round_32767.
    + apply round_monotone.
      apply (Qmult_le_compat_r 1 (clamp_unit x) 32767); [|discriminate].
      unfold clamp_unit. apply Q.min_glb; [|apply Qle_refl].
      apply Qle_trans with x; [exact H | apply Q.le_max_l].
  - assert (Hle : to_int16_sample T x <= -32767); [|lia].
    rewrite Heq. change (-32767) with (Qtrunc (-32767)) at 1.
    apply Qtrunc_monotone. unfold scaled_sample.
    apply Qle_trans with (round T (-32767)).
    + apply round_monotone.
      apply (Qmult_le_compat_r (clamp_unit x) (-1) 32767); [|discriminate].
      unfold clamp_unit. apply Qle_trans with (Qmax x (-1)); [apply Q.le_min_l|].
      apply Q.max_lub; [exact H | apply Qle_refl].
    + apply Qle_lteq. right. exact round_neg_32767.
Qed.

End Int16More.

(** ** [rearrange(t, 'b d n -> d (b n)')] *)

(** A concatenation of [k] blocks of [m] elements each has [k * m] elements,
    and its element [i * m + j] is element [j] of block [i]. *)
Lemma flat_map_blocks {A} (f : nat -> list A) (m k : nat) :
  (forall i, (i < k)%nat -> length (f i) = m) ->
  length (flat_map f (seq 0 k)) = (k * m)%nat /\
  forall i j, (i < k)%nat -> (j < m)%nat ->
    nth_error (flat_map f (seq 0 k)) (i * m + j) = nth_error (f i) j.
Proof.
  induction k as [|k IH]; intros Hlen.
  - split; [reflexivity | intros i j Hi; lia].
  - destruct IH as [IHlen IHnth]; [intros i Hi; apply Hlen; lia|].
    rewrite seq_S, flat_map_app. simpl. rewrite app_nil_r. split.
    + rewrite length_app, IHlen, Hlen by lia. lia.
    + intros i j Hi Hj. destruct (Nat.eq_dec i k) as [->|Hne].
      * rewrite List.nth_error_app2 by (rewrite IHlen; lia).
        rewrite IHlen. f_equal. lia.
      * rewrite List.nth_error_app1 by (rewrite IHlen; nia).
        apply IHnth; lia.
Qed.

(** X19: on a batch of shape (b, d, n) with its b*d*n elements, [rearrange]
    returns a tensor of shape (d, b*n) with as many elements, and sample [ni]
    of channel [di] of item [bi] lands in row [di] at column [bi * n + ni]:
    the items of the batch are laid end to end, channel by channel. *)
Theorem rearrange_b_d_n_elements {A} (t : Tensor A) (b d n : nat) :
  shape t = [b; d; n] ->
  length (data t) = (b * d * n)%nat ->
  exists out,
    rearrange_b_d_n t = Returned out /\
    shape out = [d; (b * n)%nat] /\
    length (data out) = (d * (b * n))%nat /\
    forall bi di ni, (bi < b)%nat -> (di < d)%nat -> (ni < n)%nat ->
      nth_error (data out) (di * (b * n) + (bi * n + ni))
      = nth_error (data t) ((bi * d + di) * n + ni).
Proof.
  intros Hshape Hlen. unfold rearrange_b_d_n. rewrite Hshape.
  eexists. split; [reflexivity|]. simpl. split; [reflexivity|].
  set (block := fun di bi => firstn n (skipn ((bi * d + di) * n) (data t))).
  assert (Hblock : forall di bi, (di < d)%nat -> (bi < b)%nat -> length (block di bi) = n).
  { intros di bi Hdi Hbi. unfold block. rewrite length_firstn, length_skipn, Hlen.
    assert ((bi * d + di + 1) * n <= b * d * n)%nat by (apply Nat.mul_le_mono_r; nia).
    lia. }
  assert (Hrow : forall di, (di < d)%nat ->
            length (flat_map (block di) (seq 0 b)) = (b * n)%nat /\
            forall bi ni, (bi < b)%nat -> (ni < n)%nat ->
              nth_error (flat_map (block di) (seq 0 b)) (bi * n + ni)
              = nth_error (data t) ((bi * d + di) * n + ni)).
  { intros di Hdi.
    destruct (flat_map_blocks (block di) n b) as [Hl Hn]; [intros; apply Hblock; assumption|].
    split; [exact Hl|]. intros bi ni Hbi Hni. rewrite Hn by assumption.
    unfold block. rewrite List.nth_error_firstn.
    destruct (Nat.ltb_spec ni n) as [_|]; [|lia].
    apply List.nth_error_skipn. }
  destruct (flat_map_blocks (fun di => flat_map (block di) (seq 0 b)) (b * n) d) as [Hl Hn].
  { intros di Hdi. apply Hrow. exact Hdi. }
  split; [exact Hl|].
  intros bi di ni Hbi Hdi Hni. rewrite Hn by (try assumption; nia).
  apply Hrow; assumption.
Qed.

(** ** The file names of lines 175 and 179 *)

Lemma append_cons (c : Ascii.ascii) (a b : string) : String c a +:+ b = String c (a +:+ b).
Proof. reflexivity. Qed.

Lemma append_nil (b : string) : "" +:+ b = b.
Proof. reflexivity. Qed.

Lemma zeros_S (k : nat) : zeros (S k) = "0" +:+ zeros k.
Proof. reflexivity. Qed.

Lemma uint_of_string_zeros (k : nat) (s : string) :
  NilEmpty.uint_of_string (zeros k +:+ s)
  = option_map (Nat.iter k Decimal.D0) (NilEmpty.uint_of_string s).
Proof.
  induction k as [|k IH].
  - change (zeros 0) with "". rewrite append_nil.
    destruct (NilEmpty.uint_of_string s); reflexivity.
  - rewrite zeros_S, !append_cons, append_nil. simpl. rewrite IH.
    destruct (NilEmpty.uint_of_string s); reflexivity.
Qed.

Lemma of_uint_leading_zeros (k : nat) (u : Decimal.uint) :
  N.of_uint (Nat.iter k Decimal.D0 u) = N.of_uint u.
Proof.
  induction k as [|k IH]; [reflexivity|]. simpl. exact IH.
Qed.

Lemma uint_of_string_digits (n : N) :
  exists u, NilEmpty.uint_of_string (digits n) = Some u /\ N.of_uint u = n.
Proof.
  unfold digits. exists (N.to_uint n).
  split; [|apply DecimalN.Unsigned.of_to].
  destruct (N.to_uint n) eqn:Hu; try apply NilEmpty.usu.
  destruct n; [discriminate|]. simpl in Hu.
  pose proof (DecimalN.Unsigned.of_to (N.pos p)) as Hp. simpl in Hp. rewrite Hu in Hp.
  discriminate.
Qed.

(** The number can be read back from what [format_08] wrote: without a
    sign when the whole string is made of digits, negated when all but the
    first character is. *)
Lemma format_08_readable :
  exists parse : string -> option Z, forall n, parse (format_08 n) = Some n.
Proof.
  exists (fun s =>
    match NilEmpty.uint_of_string s with
    | Some u => Some (Z.of_N (N.of_uint u))
    | None =>
        match s with
        | String _ rest =>
            match NilEmpty.uint_of_string rest with
            | Some u => Some (- Z.of_N (N.of_uint u))
            | None => None
            end
        | EmptyString => None
        end
    end).
  intros n. unfold format_08.
  destruct (uint_of_string_digits (Z.abs_N n)) as (u & Hu & Hn).
  destruct (Z.ltb_spec n 0) as [Hneg|Hpos].
  - rewrite !append_cons, append_nil. simpl.
    rewrite uint_of_string_zeros, Hu. simpl.
    rewrite of_uint_leading_zeros, Hn, N2Z.inj_abs_N. f_equal. lia.
  - rewrite uint_of_string_zeros, Hu. simpl.
    rewrite of_uint_leading_zeros, Hn, N2Z.inj_abs_N. f_equal. lia.
Qed.

Lemma list_ascii_of_string_app (a b : string) :
  String.list_ascii_of_string (a +:+ b) = String.list_ascii_of_string a ++ String.list_ascii_of_string b.
Proof.
  induction a as [|c a IH]; [reflexivity|].
  rewrite append_cons. simpl. rewrite IH. reflexivity.
Qed.

Lemma string_app_inv_tail (a b s : string) : a +:+ s = b +:+ s -> a = b.
Proof.
  intros H. apply (f_equal String.list_ascii_of_string) in H.
  rewrite !list_ascii_of_string_app in H. apply app_inv_tail in H.
  apply (f_equal String.string_of_list_ascii) in H.
  rewrite !String.string_of_list_ascii_of_string in H. exact H.
Qed.

(** X20: [f'{n:08}'] writes at least eight characters and different numbers
    differently, so the demos of different global steps are saved under
    different file names, and a reconstruction never takes the name of a
    file of real audio: no demo overwrites the files of another. *)
Theorem demo_filenames_distinct (g1 g2 : Z) :
  (8 <= String.length (format_08 g1))%nat /\
  (format_08 g1 = format_08 g2 -> g1 = g2) /\
  ("recon_" +:+ format_08 g1 +:+ ".wav" = "recon_" +:+ format_08 g2 +:+ ".wav" -> g1 = g2) /\
  ("reals_" +:+ format_08 g1 +:+ ".wav" = "reals_" +:+ format_08 g2 +:+ ".wav" -> g1 = g2) /\
  "recon_" +:+ format_08 g1 +:+ ".wav" <> "reals_" +:+ format_08 g2 +:+ ".wav".
Proof.
  assert (Hinj : format_08 g1 = format_08 g2 -> g1 = g2).
  { destruct format_08_readable as [parse Hparse]. intros H.
    pose proof (Hparse g1) as H1. rewrite H, Hparse in H1. congruence. }
  assert (Hlen : forall a b, String.length (a +:+ b) = (String.length a + String.length b)%nat).
  { intros a b. induction a as [|c a IH]; [reflexivity|].
    rewrite append_cons. simpl. rewrite IH. reflexivity. }
  assert (Hzeros : forall k, String.length (zeros k) = k).
  { induction k as [|k IH]; [reflexivity|].
    rewrite zeros_S, append_cons, append_nil. simpl. rewrite IH. reflexivity. }
  split; [|split; [exact Hinj|split; [|split]]].
  - unfold format_08. destruct (g1 <? 0).
    + rewrite append_cons, append_nil. simpl. rewrite Hlen, Hzeros. lia.
    + rewrite Hlen, Hzeros. lia.
  - intros H. apply Hinj.
    apply (inj (String.append "recon_")) in H. apply string_app_inv_tail in H. exact H.
  - intros H. apply Hinj.
    apply (inj (String.append "reals_")) in H. apply string_app_inv_tail in H. exact H.
  - rewrite !append_cons. discriminate.
Qed.

(** ** The further properties on concrete inputs *)

(** A run is known once its outcome is: the state it ends in is whatever
    the run leaves. *)
Lemma run_eq {St A} (r : Outcome A * St) (o : Outcome A) : fst r = o -> r = (o, snd r).
Proof. destruct r as [o' s]. simpl. intros ->. reflexivity. Qed.

(** [missing_kl_raises_KeyError] for a "vae" autoencoder whose encoder
    reports an empty info. *)
Lemma missing_kl_raises_KeyError_witness :
  let T := toy ∅ None 0 in
  let s0 := toy_start ∅ None 0 "vae" 150000 in
  (∅ : gmap string Q) !! "kl" = None /\
  fst (training_step T 0 (clip, tt) s0) = Raised (mkExc KeyError "kl").
Proof.
  cbv zeta.
  assert (Hkl : (∅ : gmap string Q) !! "kl" = None) by apply lookup_empty.
  split; [exact Hkl|].
  destruct (missing_kl_raises_KeyError (toy ∅ None 0) 0 clip tt
              (toy_start ∅ None 0 "vae" 150000) clip (∅ : gmap string Q) clip
              eq_refl eq_refl eq_refl eq_refl Hkl)
    as (s' & Hrun & _).
  exact (f_equal fst Hrun).
Defined.


(** [completed_step_calls] at a discriminator step. *)
Lemma completed_step_calls_witness :
  let T := toy ∅ None 0 in
  let s0 := toy_start ∅ None 0 "none" 4 in
  let s1 := snd (training_step T 7 (clip, tt) s0) in
  training_step T 7 (clip, tt) s0 = (Returned 5%Q, s1) /\
  backpropagated (trace T s1) = [5%Q].
Proof.
  cbv zeta.
  assert (Hrun : training_step (toy ∅ None 0) 7 (clip, tt) (toy_start ∅ None 0 "none" 4)
                 = (Returned 5%Q,
                    snd (training_step (toy ∅ None 0) 7 (clip, tt)
                           (toy_start ∅ None 0 "none" 4))))
    by (apply run_eq; by_vm).
  split; [exact Hrun|].
  destruct (completed_step_calls _ _ _ _ _ _ _ Hrun) as (latents & d & Htr & _).
  rewrite Htr. reflexivity.
Defined.

(** [stale_gradients_cleared]: a gradient of 42 left on the autoencoder
    changes nothing of a generator step. *)
Lemma stale_gradients_cleared_witness :
  let T := toy ∅ None 0 in
  let s0 := toy_start ∅ None 0 "none" 150000 in
  let r := training_step T 0 (clip, tt) s0 in
  r = (Returned (3 + (1 # 10) * 0 + 10 * 0)%Q, snd r) /\
  training_step T 0 (clip, tt) (@with_grads T Autoencoder 42%Q s0) = r.
Proof.
  cbv zeta.
  assert (Hrun : training_step (toy ∅ None 0) 0 (clip, tt) (toy_start ∅ None 0 "none" 150000)
                 = (Returned (3 + (1 # 10) * 0 + 10 * 0)%Q,
                    snd (training_step (toy ∅ None 0) 0 (clip, tt)
                           (toy_start ∅ None 0 "none" 150000))))
    by (apply run_eq; by_vm).
  split; [exact Hrun|].
  exact (eq_trans
           (stale_gradients_cleared (toy ∅ None 0) _ _ _ _ _ _ 42%Q Hrun)
           (eq_sym Hrun)).
Defined.

(** [logged_keys] at a discriminator step. *)
Lemma logged_keys_witness :
  let T := toy ∅ None 0 in
  let s0 := toy_start ∅ None 0 "none" 4 in
  let s1 := snd (training_step T 7 (clip, tt) s0) in
  training_step T 7 (clip, tt) s0 = (Returned 5%Q, s1) /\
  exists d : gmap string Q,
    logged (trace T s1) = [d] /\ dom d = ({[ "train/discriminator_loss" ]} : gset string).
Proof.
  cbv zeta.
  assert (Hrun : training_step (toy ∅ None 0) 7 (clip, tt) (toy_start ∅ None 0 "none" 4)
                 = (Returned 5%Q,
                    snd (training_step (toy ∅ None 0) 7 (clip, tt)
                           (toy_start ∅ None 0 "none" 4))))
    by (apply run_eq; by_vm).
  split; [exact Hrun|].
  destruct (logged_keys _ _ _ _ _ _ _ Hrun) as (d & Hlog & Hdom).
  exists d. split; [exact Hlog | exact Hdom].
Defined.

(** [warmup_trains_generator_only] over the first two steps of a run. *)
Lemma warmup_trains_generator_only_witness :
  let T := toy ∅ None 0 in
  let s0 := toy_start ∅ None 0 "none" 150000 in
  let s1 := snd (training_step T 0 (clip, tt) s0) in
  let s2 := snd (training_step T 1 (clip, tt) s1) in
  warmup_run T s0 2 s2 /\
  weights T (discriminator T (self T s2)) = weights T (discriminator T (self T s0)) /\
  stepped (trace T s2) = repeat (mkAdam Autoencoder (1 # 10000)%Q (1 # 2, 9 # 10)%Q) 2.
Proof.
  cbv zeta.
  assert (H1 : training_step (toy ∅ None 0) 0 (clip, tt) (toy_start ∅ None 0 "none" 150000)
               = (Returned (3 + (1 # 10) * 0 + 10 * 0)%Q,
                  snd (training_step (toy ∅ None 0) 0 (clip, tt)
                         (toy_start ∅ None 0 "none" 150000))))
    by (apply run_eq; by_vm).
  assert (H2 : training_step (toy ∅ None 0) 1 (clip, tt)
                 (snd (training_step (toy ∅ None 0) 0 (clip, tt)
                         (toy_start ∅ None 0 "none" 150000)))
               = (Returned (3 + (1 # 10) * 0 + 10 * 0)%Q,
                  snd (training_step (toy ∅ None 0) 1 (clip, tt)
                         (snd (training_step (toy ∅ None 0) 0 (clip, tt)
                                 (toy_start ∅ None 0 "none" 150000))))))
    by (apply run_eq; by_vm).
  assert (Hrun : warmup_run (toy ∅ None 0) (toy_start ∅ None 0 "none" 150000) 2
                   (snd (training_step (toy ∅ None 0) 1 (clip, tt)
                           (snd (training_step (toy ∅ None 0) 0 (clip, tt)
                                   (toy_start ∅ None 0 "none" 150000)))))).
  { eapply warmup_run_step; [|exact H1|].
    - reflexivity.
    - eapply warmup_run_step; [|exact H2|apply warmup_run_none]. reflexivity. }
  split; [exact Hrun|].
  destruct (warmup_trains_generator_only (toy ∅ None 0) (toy_start ∅ None 0 "none" 150000)
              2 _ eq_refl Hrun) as (_ & Hw & _ & Hs).
  split; [exact Hw | exact Hs].
Defined.

(** [consecutive_steps_train_both] at steps 7 and 8 of a run whose warm-up
    ended at step 4. *)
Lemma consecutive_steps_train_both_witness :
  let T := toy ∅ None 0 in
  let s0 := toy_start ∅ None 0 "none" 4 in
  let s1 := snd (training_step T 7 (clip, tt) s0) in
  let s2 := snd (training_step T 8 (clip, tt) s1) in
  training_step T 7 (clip, tt) s0 = (Returned 5%Q, s1) /\
  training_step T 8 (clip, tt) s1 = (Returned (3 + (1 # 10) * 7 + 10 * 11)%Q, s2) /\
  stepped (trace T s2)
  = [mkAdam Discriminator (1 # 10000)%Q (1 # 2, 9 # 10)%Q;
     mkAdam Autoencoder (1 # 10000)%Q (1 # 2, 9 # 10)%Q].
Proof.
  cbv zeta.
  assert (H1 : training_step (toy ∅ None 0) 7 (clip, tt) (toy_start ∅ None 0 "none" 4)
               = (Returned 5%Q,
                  snd (training_step (toy ∅ None 0) 7 (clip, tt)
                         (toy_start ∅ None 0 "none" 4))))
    by (apply run_eq; by_vm).
  assert (H2 : training_step (toy ∅ None 0) 8 (clip, tt)
                 (snd (training_step (toy ∅ None 0) 7 (clip, tt)
                         (toy_start ∅ None 0 "none" 4)))
               = (Returned (3 + (1 # 10) * 7 + 10 * 11)%Q,
                  snd (training_step (toy ∅ None 0) 8 (clip, tt)
                         (snd (training_step (toy ∅ None 0) 7 (clip, tt)
                                 (toy_start ∅ None 0 "none" 4))))))
    by (apply run_eq; by_vm).
  split; [exact H1|]. split; [exact H2|].
  assert (Hwu : warmup_steps (toy ∅ None 0) (self (toy ∅ None 0) (toy_start ∅ None 0 "none" 4))
                <= 7) by discriminate.
  exact (consecutive_steps_train_both (toy ∅ None 0) 7 (clip, tt) (clip, tt) _ _ _ _ _
           Hwu H1 H2).
Defined.

(** [configuration_never_changes] across a discriminator step. *)
Lemma configuration_never_changes_witness :
  let T := toy ∅ None 0 in
  let s0 := toy_start ∅ None 0 "none" 4 in
  let s1 := snd (training_step T 7 (clip, tt) s0) in
  later T s0 s1 /\
  configure_optimizers T (self T s1) = configure_optimizers T (self T s0).
Proof.
  cbv zeta.
  assert (H1 : training_step (toy ∅ None 0) 7 (clip, tt) (toy_start ∅ None 0 "none" 4)
               = (Returned 5%Q,
                  snd (training_step (toy ∅ None 0) 7 (clip, tt)
                         (toy_start ∅ None 0 "none" 4))))
    by (apply run_eq; by_vm).
  assert (Hl : later (toy ∅ None 0) (toy_start ∅ None 0 "none" 4)
                 (snd (training_step (toy ∅ None 0) 7 (clip, tt)
                         (toy_start ∅ None 0 "none" 4))))
    by (eapply later_step; [exact H1 | apply later_now]).
  split; [exact Hl|].
  exact (proj2 (proj2 (proj2 (configuration_never_changes _ _ _ Hl)))).
Defined.

(** ** The further properties of the callback on concrete inputs *)

(** [demo_takes_one_batch]: the demo of step 1 takes the only batch, the
    call at step 3 takes none. *)
Lemma demo_takes_one_batch_witness :
  let T := toy ∅ None 0 in
  let s := toy_demo ∅ None 2000 in
  let w := toy_module ∅ None in
  demo_every T (callback T s) <> 0 /\
  demo_dl T (callback T (snd (on_train_batch_end T 0 1 w s))) = [] /\
  demo_dl T (callback T (snd (on_train_batch_end T 0 3 w s))) = [(clip, tt)].
Proof.
  cbv zeta.
  assert (Hz : demo_every (toy ∅ None 0) (callback (toy ∅ None 0) (toy_demo ∅ None 2000)) <> 0)
    by discriminate.
  split; [exact Hz|]. split.
  - exact (proj1 (demo_takes_one_batch (toy ∅ None 0) 0 1 (toy_module ∅ None)
                    (toy_demo ∅ None 2000) Hz)).
  - exact (proj1 (demo_takes_one_batch (toy ∅ None 0) 0 3 (toy_module ∅ None)
                    (toy_demo ∅ None 2000) Hz)).
Defined.

(** [exhausted_loader_prints_StopIteration] for a callback built over an
    empty loader, at step 2001. *)
Lemma exhausted_loader_prints_StopIteration_witness :
  let T := toy ∅ None 0 in
  let s := mkDemo T (new_callback T [] 2000 65536 48000) [] in
  on_train_batch_end T 0 2001 (toy_module ∅ None) s
  = (Returned tt,
     mkDemo T (mkCallback T 2000 65536 [] 48000 2001) [Printed "StopIteration: "]).
Proof.
  cbv zeta.
  assert (Hdiv : Z.divide 2000 (2001 - 1)) by (exists 1; reflexivity).
  assert (Hz : 2000 <> 0) by discriminate.
  assert (Hlast : -1 <> 2001) by discriminate.
  exact (exhausted_loader_prints_StopIteration (toy ∅ None 0) 2001 (toy_module ∅ None)
           (mkDemo (toy ∅ None 0) (new_callback (toy ∅ None 0) [] 2000 65536 48000) [])
           Hz Hdiv Hlast eq_refl).
Defined.

(** [one_batch_serves_one_demo]: the demo of step 1 succeeds, the one of
    step 2001 finds no batch. *)
Lemma one_batch_serves_one_demo_witness :
  let T := toy ∅ None 0 in
  let w := toy_module ∅ None in
  let s1 := snd (on_train_batch_end T 0 1 w (toy_demo ∅ None 2000)) in
  on_train_batch_end T 0 2001 w s1
  = (Returned tt,
     mkDemo T (mkCallback T 2000 65536 [] 48000 2001)
       (effects T s1 ++ [Printed "StopIteration: "])).
Proof.
  cbv zeta.
  assert (Hdiv : Z.divide 2000 (2001 - 1)) by (exists 1; reflexivity).
  assert (Hz : 2000 <> 0) by discriminate.
  assert (Hne : 2001 <> 1) by discriminate.
  exact (one_batch_serves_one_demo (toy ∅ None 0) 1 2001 (toy_module ∅ None)
           (toy_module ∅ None) (toy_demo ∅ None 2000) (clip, tt)
           Hz eq_refl eq_refl Hdiv Hne).
Defined.

(** [first_demo_at_step_one] for the default period of 2000. *)
Lemma first_demo_at_step_one_witness :
  let T := toy ∅ None 0 in
  let w := toy_module ∅ None in
  let s := mkDemo T (new_callback T [(clip, tt)] 2000 65536 48000) [] in
  2000 <> 0 /\
  on_train_batch_end T 0 1 w s
  = py_try_except_Exception (render_demo T 1 w) (print_exception T) (started T s 1) /\
  on_train_batch_end T 0 0 w s = (Returned tt, s).
Proof.
  cbv zeta.
  assert (Hz : 2000 <> 0) by discriminate.
  assert (H1 : 2000 <> 1) by discriminate.
  assert (Hm1 : 2000 <> -1) by discriminate.
  split; [exact Hz|].
  destruct (first_demo_at_step_one (toy ∅ None 0) [(clip, tt)] 2000 65536 48000
              (toy_module ∅ None) Hz) as [Hone Hzero].
  split; [exact Hone | exact (Hzero H1 Hm1)].
Defined.

(** [int16_conversion_monotone] where nothing is rounded. *)
Lemma int16_conversion_monotone_witness :
  let T := toy ∅ None 0 in
  (1 # 2 <= 3 # 4)%Q /\ to_int16_sample T (1 # 2) <= to_int16_sample T (3 # 4).
Proof.
  cbv zeta.
  assert (Hle : (1 # 2 <= 3 # 4)%Q) by (unfold Qle; simpl; lia).
  split; [exact Hle|].
  exact (int16_conversion_monotone (toy ∅ None 0) (fun x y H => H) (Qeq_refl _) (Qeq_refl _)
           (1 # 2) (3 # 4) Hle).
Defined.

(** [int16_conversion_saturates] on samples of 2 and of -5. *)
Lemma int16_conversion_saturates_witness :
  let T := toy ∅ None 0 in
  to_int16_sample T 2 = 32767 /\ to_int16_sample T (-5) = -32767.
Proof.
  cbv zeta.
  assert (Hhi : (1 <= 2)%Q) by (unfold Qle; simpl; lia).
  assert (Hlo : (-5 <= -1)%Q) by (unfold Qle; simpl; lia).
  split.
  - exact (proj1 (int16_conversion_saturates (toy ∅ None 0) (fun x y H => H) (Qeq_refl _)
                    (Qeq_refl _) 2) Hhi).
  - exact (proj2 (int16_conversion_saturates (toy ∅ None 0) (fun x y H => H) (Qeq_refl _)
                    (Qeq_refl _) (-5)) Hlo).
Defined.

(** [rearrange_b_d_n_elements] on the two-clip batch: the first left sample
    of the second clip comes fourth in the left row. *)
Lemma rearrange_b_d_n_elements_witness :
  shape clip = [2; 2; 3]%nat /\
  length (data clip) = (2 * 2 * 3)%nat /\
  exists out,
    rearrange_b_d_n clip = Returned out /\
    nth_error (data out) 3 = nth_error (data clip) 6.
Proof.
  assert (Hshape : shape clip = [2; 2; 3]%nat) by reflexivity.
  assert (Hlen : length (data clip) = (2 * 2 * 3)%nat) by reflexivity.
  split; [exact Hshape|]. split; [exact Hlen|].
  destruct (rearrange_b_d_n_elements clip 2 2 3 Hshape Hlen) as (out & Hout & _ & _ & Hnth).
  exists out. split; [exact Hout|].
  apply (Hnth 1%nat 0%nat 0%nat); lia.
Defined.
